(** * black-earth: turret control, turn order and projectile wiring

    A shallow embedding of [src/game/tank.py] and [src/game/blackearth.py].

    Python integers are [Z].  Quantities that the program only passes
    through or divides with [/] (positions, mass, friction, damping, power)
    are rationals [Q]: Python computes them in floating point, and nothing
    proved below depends on how a quotient is rounded.  Objects that are
    reachable through more than one attribute (the tanks: [tanksList],
    [tanksCycle] and [activeTank] all refer to the same objects; the
    sprites: the render list and the physics engine) live in stores indexed
    by object identity. *)

From Stdlib Require Import ZArith QArith Lia.
From stdpp Require Import base option list gmap strings pretty.

Open Scope Z_scope.

(** ** Constants *)

(** [arcade.key] (pyglet key symbols). *)
Module key.
Definition LEFT : Z := 65361.
Definition RIGHT : Z := 65363.
Definition SPACE : Z := 32.
Definition ESCAPE : Z := 65307.
End key.

(** [arcade.csscolor] / [arcade.color] names used by the program. *)
Inductive color :=
  | RED | BLUE | GREEN | YELLOW | LAVENDER | DEEP_PINK
  | CORNFLOWER_BLUE | DARK_SPRING_GREEN | WHITE_SMOKE.

(** tank.py, lines 14-21. *)
Definition TANK_SIZE : Z := 50.
Definition TANK_TURRET_LENGTH : Z := 40.
Definition TANK_STARTING_ANGLE_DEG : Z := 45.
Definition TURRET_ANGLE_MAX : Z := 180.
Definition TURRET_ANGLE_MIN : Z := 0.
Definition TURRET_WIDTH : Z := 5.
Definition TURRET_OFFSET_Y : Z := 5.
Definition TURRET_SPEED_STEP : Z := 2.

(** [pymunk.Vec2d]. *)
Record Vec2d := mkVec2d { vx : Q; vy : Q }.

(** ** [itertools.cycle]

    The iterator first drains the underlying iterable, saving each item,
    and then replays the saved items forever.  [it] holds the items the
    underlying iterator has still to yield.  [next] returns [None] for
    Python's [StopIteration], which happens only for an empty iterable. *)
Module itertools.
Section Cycle.
Context {A : Type}.

Record cycle := mkCycle { it : list A; saved : list A; index : nat }.

Definition new (iterable : list A) : cycle :=
      {| it := iterable; saved := []; index := 0 |}.

Definition next (c : cycle) : option A * cycle :=
      match it c with
      | x :: rest =>
          (Some x, {| it := rest; saved := saved c ++ [x]; index := index c |})
      | [] =>
          match saved c !! index c with
          | None => (None, c)
          | Some x =>
              let i := S (index c) in
              (Some x, {| it := []; saved := saved c;
                          index := if decide (i < length (saved c))%nat then i else 0%nat |})
          end
      end.

    (** The cycle after [k] calls of [next]. *)
Fixpoint advance (k : nat) (c : cycle) : cycle :=
      match k with
      | O => c
      | S k' => advance k' (snd (next c))
      end.
End Cycle.
Arguments cycle : clear implicits.
End itertools.

(** tank.py, lines 26-33. *)
Definition TANK_COLORS : itertools.cycle color :=
  itertools.new [RED; BLUE; GREEN; YELLOW; LAVENDER; DEEP_PINK].

(** ** Turret (tank.py, lines 92-156) *)

Record turret := mkTurret {
  turretname : string;
  turret_position : Vec2d;
  turretcolor : color;
  turretAngleDeg : Z;
  turretLength : Z;
  turretSpeed : Z
}.

Definition set_turretSpeed (v : Z) (t : turret) : turret :=
  {| turretname := turretname t; turret_position := turret_position t;
     turretcolor := turretcolor t; turretAngleDeg := turretAngleDeg t;
     turretLength := turretLength t; turretSpeed := v |}.

Definition set_turretAngleDeg (v : Z) (t : turret) : turret :=
  {| turretname := turretname t; turret_position := turret_position t;
     turretcolor := turretcolor t; turretAngleDeg := v;
     turretLength := turretLength t; turretSpeed := turretSpeed t |}.

Module Turret.
Definition __init__ (name : string) (position : Vec2d) (c : color) : turret :=
    {| turretname := name; turret_position := position; turretcolor := c;
       turretAngleDeg := TANK_STARTING_ANGLE_DEG;
       turretLength := TANK_TURRET_LENGTH;
       turretSpeed := 0 |}.

  (** Two independent [if] statements, in source order. *)
Definition on_key_press (k modifiers : Z) (self : turret) : turret :=
    let self := if k =? key.LEFT then set_turretSpeed TURRET_SPEED_STEP self else self in
    let self := if k =? key.RIGHT then set_turretSpeed (- TURRET_SPEED_STEP) self else self in
    self.

Definition on_key_release (k modifiers : Z) (self : turret) : turret :=
    let self := if k =? key.LEFT then set_turretSpeed 0 self else self in
    let self := if k =? key.RIGHT then set_turretSpeed 0 self else self in
    let self := if k =? key.SPACE then set_turretSpeed 0 self else self in
    self.

Definition on_update (self : turret) : turret :=
    let self :=
      if negb (turretSpeed self =? 0)
      then set_turretAngleDeg (turretAngleDeg self + turretSpeed self) self
      else self in
    if turretAngleDeg self >? TURRET_ANGLE_MAX
    then set_turretAngleDeg TURRET_ANGLE_MAX self
    else if turretAngleDeg self <? TURRET_ANGLE_MIN
    then set_turretAngleDeg TURRET_ANGLE_MIN self
    else self.
End Turret.

(** ** Tank (tank.py, lines 35-87) *)

Record tank := mkTank {
  name : string;
  size : Z;
  position : Vec2d;
  tank_color : color;
  turret_obj : turret
}.

Definition set_turret_obj (t : turret) (self : tank) : tank :=
  {| name := name self; size := size self; position := position self;
     tank_color := tank_color self; turret_obj := t |}.

Module Tank.
  (** The parameters of [Tank.__init__] after [self]. *)
Definition __init__params : list string := ["name"; "position"; "color"].

Definition __init__ (name : string) (position : Vec2d) (c : color) : tank :=
    {| name := name; size := TANK_SIZE; position := position; tank_color := c;
       turret_obj := Turret.__init__ name position c |}.

Definition on_key_press (k modifiers : Z) (self : tank) : tank :=
    set_turret_obj (Turret.on_key_press k modifiers (turret_obj self)) self.

Definition on_key_release (k modifiers : Z) (self : tank) : tank :=
    set_turret_obj (Turret.on_key_release k modifiers (turret_obj self)) self.

Definition on_update (self : tank) : tank :=
    set_turret_obj (Turret.on_update (turret_obj self)) self.
End Tank.

(** ** Driving a turret with a sequence of events *)

Inductive event :=
  | KeyPress (k modifiers : Z)
  | KeyRelease (k modifiers : Z)
  | Update.

Definition turret_step (t : turret) (e : event) : turret :=
  match e with
  | KeyPress k m => Turret.on_key_press k m t
  | KeyRelease k m => Turret.on_key_release k m t
  | Update => Turret.on_update t
  end.

Definition turret_run (es : list event) (t : turret) : turret :=
  foldl turret_step t es.

(** [k] consecutive [update()] calls. *)
Definition updates (k : nat) (t : turret) : turret :=
  Nat.iter k Turret.on_update t.

Definition angle_in_range (t : turret) : Prop :=
  TURRET_ANGLE_MIN <= turretAngleDeg t <= TURRET_ANGLE_MAX.

(** ** Exceptions and results *)

Inductive exn :=
  | TypeError | StopIteration | AttributeError | KeyError | ValueError
  | SystemExit.

Definition exn_name (e : exn) : string :=
  match e with
  | TypeError => "TypeError"
  | StopIteration => "StopIteration"
  | AttributeError => "AttributeError"
  | KeyError => "KeyError"
  | ValueError => "ValueError"
  | SystemExit => "SystemExit"
  end.

Inductive result (A : Type) :=
  | Return (a : A)
  | Raise (e : exn).
Arguments Return {A} a.
Arguments Raise {A} e.

(** ** Collaborators that are not in the repository *)

(** [config.WindowConfig] and [config.PhysicsConfig]: the module [config] is
    imported by blackearth.py but its values are supplied from outside. *)
Class WindowConfig := { WIDTH : Z; HEIGHT : Z; TITLE : string }.
Class PhysicsConfig := { GRAVITY : Q; DAMPING : Q }.

(** The projectile sprite class: [add_bullet] reads [mass] and [friction]
    from it and the collision handler calls [detonate()] on it.  [B] is the
    projectile's own state, which is all that [detonate] acts on. *)
Class Projectile (B : Type) := {
  mass : B -> Q;
  friction : B -> Q;
  detonate : B -> B
}.

(** ** Sprites and the physics engine (arcade) *)

Inductive sprite (B : Type) :=
  | Bullet (b : B)
  | SpriteSolidColor (width height : Z) (c : color) (center_x center_y : Q).
Arguments Bullet {B} b.
Arguments SpriteSolidColor {B} width height c center_x center_y.

Inductive body_kind := DYNAMIC | STATIC | KINEMATIC.

(** What [add_sprite] records for a sprite, and the impulses applied to
    its body so far. *)
Record body := mkBody {
  body_type : body_kind;
  collision_type : string;
  body_mass : Q;
  body_friction : Q;
  body_damping : option Q;
  impulses : list (Q * Q)
}.

(** [add_sprite]'s defaults for the arguments a call leaves out. *)
Definition default_body : body :=
  {| body_type := DYNAMIC; collision_type := "default"; body_mass := 1;
     body_friction := 2 # 10; body_damping := None; impulses := [] |}.

(** The collision callbacks this program defines. *)
Inductive handler := bullet_ground_handler_fn.

Record engine := mkEngine {
  gravity : Q * Q;
  damping : Q;
  registry : gmap nat body;                    (* [engine.sprites] *)
  handlers : list (string * string * handler)  (* post-collision handlers *)
}.

(** ** The world: object stores and the attributes of the game window *)

Record world (B : Type) := mkWorld {
  tanks : gmap nat tank;                  (* Tank objects, by identity *)
  sprites : gmap nat (sprite B);          (* sprite objects, by identity *)
  COLORS : itertools.cycle color;         (* [TankConfig.COLORS], shared iterator *)
  background_color : option color;
  (* attributes of [self]; [None]: not set, or not an object of the expected class *)
  tanksList : option (list nat);
  tanksCycle : option (itertools.cycle nat);
  activeTank : option nat;
  ground : option nat;
  bullets_list : option (list nat);
  physics_engine : option engine
}.
Arguments mkWorld {B}.
Arguments tanks {B}.
Arguments sprites {B}.
Arguments COLORS {B}.
Arguments background_color {B}.
Arguments tanksList {B}.
Arguments tanksCycle {B}.
Arguments activeTank {B}.
Arguments ground {B}.
Arguments bullets_list {B}.
Arguments physics_engine {B}.

(** The part of the world the physics engine and its callbacks can reach:
    the sprites, the sprite list they are in, and the engine itself.  Tanks
    are never registered with the engine. *)
Record arena (B : Type) := mkArena {
  arena_sprites : gmap nat (sprite B);
  arena_bullets_list : option (list nat);
  arena_engine : engine
}.
Arguments mkArena {B}.
Arguments arena_sprites {B}.
Arguments arena_bullets_list {B}.
Arguments arena_engine {B}.

(** [PymunkPhysicsEngine.step]: the integrator itself is outside the
    program. *)
Class PhysicsStep (B : Type) := { step : Q -> arena B -> arena B }.

Section WorldUpdates.
Context {B : Type}.
Implicit Type w : world B.

Definition set_tanks v w : world B :=
    mkWorld v (sprites w) (COLORS w) (background_color w) (tanksList w)
      (tanksCycle w) (activeTank w) (ground w) (bullets_list w) (physics_engine w).
Definition set_sprites v w : world B :=
    mkWorld (tanks w) v (COLORS w) (background_color w) (tanksList w)
      (tanksCycle w) (activeTank w) (ground w) (bullets_list w) (physics_engine w).
Definition set_COLORS v w : world B :=
    mkWorld (tanks w) (sprites w) v (background_color w) (tanksList w)
      (tanksCycle w) (activeTank w) (ground w) (bullets_list w) (physics_engine w).
Definition set_background_color v w : world B :=
    mkWorld (tanks w) (sprites w) (COLORS w) v (tanksList w)
      (tanksCycle w) (activeTank w) (ground w) (bullets_list w) (physics_engine w).
Definition set_tanksList v w : world B :=
    mkWorld (tanks w) (sprites w) (COLORS w) (background_color w) v
      (tanksCycle w) (activeTank w) (ground w) (bullets_list w) (physics_engine w).
Definition set_tanksCycle v w : world B :=
    mkWorld (tanks w) (sprites w) (COLORS w) (background_color w) (tanksList w)
      v (activeTank w) (ground w) (bullets_list w) (physics_engine w).
Definition set_activeTank v w : world B :=
    mkWorld (tanks w) (sprites w) (COLORS w) (background_color w) (tanksList w)
      (tanksCycle w) v (ground w) (bullets_list w) (physics_engine w).
Definition set_ground v w : world B :=
    mkWorld (tanks w) (sprites w) (COLORS w) (background_color w) (tanksList w)
      (tanksCycle w) (activeTank w) v (bullets_list w) (physics_engine w).
Definition set_bullets_list v w : world B :=
    mkWorld (tanks w) (sprites w) (COLORS w) (background_color w) (tanksList w)
      (tanksCycle w) (activeTank w) (ground w) v (physics_engine w).
Definition set_physics_engine v w : world B :=
    mkWorld (tanks w) (sprites w) (COLORS w) (background_color w) (tanksList w)
      (tanksCycle w) (activeTank w) (ground w) (bullets_list w) v.
End WorldUpdates.

(** ** The program monad: state, and exceptions that keep the state

    A Python exception does not undo the assignments made before it. *)

Definition M (B A : Type) : Type := world B -> result A * world B.

#[global] Instance M_ret {B} : MRet (M B) :=
  fun A (a : A) w => (Return a, w).

#[global] Instance M_bind {B} : MBind (M B) :=
  fun A C (f : A -> M B C) (m : M B A) w =>
    match m w with
    | (Return a, w') => f a w'
    | (Raise e, w') => (Raise e, w')
    end.

Definition raise {B A} (e : exn) : M B A := fun w => (Raise e, w).

Definition modify {B} (f : world B -> world B) : M B unit :=
  fun w => (Return tt, f w).

(** Reading an attribute that must hold an object. *)
Definition attr {B A} (f : world B -> option A) : M B A :=
  fun w => match f w with
           | Some a => (Return a, w)
           | None => (Raise AttributeError, w)
           end.

(** A [for] loop: the body runs for each item in order, and an exception
    leaves the loop. *)
Fixpoint for_ {B A} (l : list A) (f : A -> M B unit) : M B unit :=
  match l with
  | [] => mret tt
  | x :: l' => f x ;; for_ l' f
  end.

(** [next(it)] on a cycle kept in the world. *)
Definition next_of {B A} (rd : world B -> option (itertools.cycle A))
    (wr : itertools.cycle A -> world B -> world B) : M B A :=
  c ← attr rd;
  match itertools.next c with
  | (Some x, c') => modify (wr c') ;; mret x
  | (None, c') => modify (wr c') ;; raise StopIteration
  end.

(** Binding the keyword arguments of a call to the parameters of the
    callee: a keyword that is not a parameter, or a parameter left without
    an argument, is a [TypeError]. *)
Definition bind_keywords {B} (params kwargs : list string) : M B unit :=
  if decide (kwargs ⊆ params ∧ params ⊆ kwargs) then mret tt else raise TypeError.

Definition gets {B A} (f : world B -> A) : M B A :=
  fun w => (Return (f w), w).

(** [m] run [n] times in a row. *)
Fixpoint times {B} (n : nat) (m : M B unit) : M B unit :=
  match n with
  | O => mret tt
  | S n' => m ;; times n' m
  end.

(** ** [arcade.PymunkPhysicsEngine]: the sprite registry and the handlers *)

Module PymunkPhysicsEngine.

Definition __init__ (gravity : Q * Q) (damping : Q) : engine :=
  {| gravity := gravity; damping := damping; registry := ∅; handlers := [] |}.

(** A sprite that is already registered is left as it is (the engine only
    logs a warning): its body and the impulses on it are kept. *)
Definition add_sprite (s : nat) (b : body) (e : engine) : engine :=
  match registry e !! s with
  | Some _ => e
  | None =>
      {| gravity := gravity e; damping := damping e;
         registry := <[s := b]> (registry e); handlers := handlers e |}
  end.

Definition add_collision_handler (first_type second_type : string)
    (post_handler : handler) (e : engine) : engine :=
  {| gravity := gravity e; damping := damping e; registry := registry e;
     handlers := handlers e ++ [(first_type, second_type, post_handler)] |}.

Definition add_impulse (impulse : Q * Q) (b : body) : body :=
  {| body_type := body_type b; collision_type := collision_type b;
     body_mass := body_mass b; body_friction := body_friction b;
     body_damping := body_damping b; impulses := impulses b ++ [impulse] |}.

(** [None]: the sprite has no physics object ([KeyError]). *)
Definition apply_impulse (s : nat) (impulse : Q * Q) (e : engine) : option engine :=
  match registry e !! s with
  | None => None
  | Some b =>
      Some {| gravity := gravity e; damping := damping e;
              registry := <[s := add_impulse impulse b]> (registry e);
              handlers := handlers e |}
  end.

Definition remove_sprite (s : nat) (e : engine) : engine :=
  {| gravity := gravity e; damping := damping e;
     registry := delete s (registry e); handlers := handlers e |}.

Fixpoint find_handler (a b : string) (hs : list (string * string * handler))
    : option handler :=
  match hs with
  | [] => None
  | (x, y, h) :: hs' =>
      if decide (x = a ∧ y = b) then Some h else find_handler a b hs'
  end.

End PymunkPhysicsEngine.

(** ** BlackEarthGame (blackearth.py) *)

Module BlackEarthGame.
Section Methods.
Context {B : Type} {window : WindowConfig} {physics : PhysicsConfig}.
Context {projectile : Projectile B} {stepper : PhysicsStep B}.

(** Lines 27-35.  [physics_engine] is assigned a typing construct, which is
    not an engine. *)
Definition __init__ (width height : Z) (title : string) : M B unit :=
  modify (set_bullets_list None) ;;
  modify (set_physics_engine None).

(** A method call on the tank object [r]. *)
Definition call_tank (r : nat) (f : tank -> tank) : M B unit :=
  modify (fun w => set_tanks (alter f r (tanks w)) w).

(** The call [tank.Tank(...)] with the given keyword names: the keywords
    are bound to the parameters of [Tank.__init__], and the new object gets
    a fresh identity. *)
Definition new_Tank (kwargs : list string) (name : string) (position : Vec2d)
    (c : color) : M B nat :=
  bind_keywords Tank.__init__params kwargs ;;
  r ← gets (fun w => fresh (dom (tanks w)));
  modify (fun w => set_tanks (<[r := Tank.__init__ name position c]> (tanks w)) w) ;;
  mret r.

(** Lines 154-157: the circular iterator over the tank list and the first
    active tank. *)
Definition create_tanks_cycle : M B unit :=
  l ← attr tanksList;
  modify (set_tanksCycle (Some (itertools.new l))) ;;
  a ← next_of tanksCycle (fun c => set_tanksCycle (Some c));
  modify (set_activeTank (Some a)).

(** Lines 128-157.  The arguments of the constructor call are evaluated in
    source order before the call is made. *)
Definition create_tanks (num_tanks : Z) : M B unit :=
  modify (set_tanksList (Some [])) ;;
  for_ (seqZ 1 num_tanks) (fun n =>
    let name := "Player " +:+ pretty n in
    let position :=
      mkVec2d (inject_Z (WIDTH * n) / inject_Z (num_tanks + 1))
              (inject_Z HEIGHT / inject_Z 3) in
    c ← next_of (fun w => Some (COLORS w)) set_COLORS;
    new_tank ← new_Tank ["name"; "parent"; "position"; "color"] name position c;
    l ← attr tanksList;
    modify (set_tanksList (Some (l ++ [new_tank])))) ;;
  create_tanks_cycle.

(** Lines 159-170. *)
Definition create_environment : M B unit :=
  modify (set_background_color (Some CORNFLOWER_BLUE)) ;;
  g ← gets (fun w => fresh (dom (sprites w)));
  modify (fun w => set_sprites
    (<[g := SpriteSolidColor WIDTH (HEIGHT `div` 3) DARK_SPRING_GREEN
              (inject_Z WIDTH / inject_Z 2) (inject_Z HEIGHT / inject_Z 6)]>
       (sprites w)) w) ;;
  modify (set_ground (Some g)).

(** Lines 172-176. *)
Definition setup_physics_engine : M B unit :=
  modify (set_physics_engine
            (Some (PymunkPhysicsEngine.__init__ (0%Q, GRAVITY) DAMPING))).

(** [bullet_sprite.detonate()]: only a projectile has the method. *)
Definition sprite_detonate (s : nat) : M B unit :=
  o ← gets (fun w => sprites w !! s);
  match o with
  | Some (Bullet b) =>
      modify (fun w => set_sprites (<[s := Bullet (detonate b)]> (sprites w)) w)
  | _ => raise AttributeError
  end.

(** [Sprite.remove_from_sprite_lists()]: the sprite leaves every sprite list
    it was appended to (the render list is the only one in this program)
    and the physics engines it is registered with. *)
Definition remove_from_sprite_lists (s : nat) : M B unit :=
  modify (fun w => set_bullets_list (filter (.≠ s) <$> bullets_list w) w) ;;
  modify (fun w => set_physics_engine
                     (PymunkPhysicsEngine.remove_sprite s <$> physics_engine w) w).

(** Lines 188-191. *)
Definition bullet_ground_handler (bullet_sprite ground_sprite : nat) : M B unit :=
  sprite_detonate bullet_sprite ;;
  remove_from_sprite_lists bullet_sprite.

(** Lines 178-193. *)
Definition setup_physics_collisions : M B unit :=
  e ← attr physics_engine;
  g ← attr ground;
  modify (set_physics_engine (Some (PymunkPhysicsEngine.add_sprite g
    {| body_type := STATIC; collision_type := "ground";
       body_mass := body_mass default_body;
       body_friction := body_friction default_body;
       body_damping := body_damping default_body; impulses := [] |} e))) ;;
  e ← attr physics_engine;
  modify (set_physics_engine (Some (PymunkPhysicsEngine.add_collision_handler
    "bullet" "ground" bullet_ground_handler_fn e))).

(** Lines 37-59. *)
Definition setup (num_tanks : Z) : M B unit :=
  create_tanks num_tanks ;;
  create_environment ;;
  modify (set_bullets_list (Some [])) ;;
  setup_physics_engine ;;
  setup_physics_collisions.

(** Lines 61-80. *)
Definition on_key_press (k modifiers : Z) : M B unit :=
  a ← attr activeTank;
  call_tank a (Tank.on_key_press k modifiers).

(** Lines 82-98.  [exit()] raises [SystemExit]. *)
Definition on_key_release (k modifiers : Z) : M B unit :=
  (if k =? key.ESCAPE then raise SystemExit else mret tt) ;;
  a ← attr activeTank;
  call_tank a (Tank.on_key_release k modifiers) ;;
  if k =? key.SPACE
  then a' ← next_of tanksCycle (fun c => set_tanksCycle (Some c));
       modify (set_activeTank (Some a'))
  else mret tt.

(** [self.physics_engine.step(delta_time)]. *)
Definition physics_engine_step (delta_time : Q) : M B unit :=
  e ← attr physics_engine;
  modify (fun w =>
    let a := step delta_time (mkArena (sprites w) (bullets_list w) e) in
    set_sprites (arena_sprites a)
      (set_bullets_list (arena_bullets_list a)
         (set_physics_engine (Some (arena_engine a)) w))).

(** Lines 100-106. *)
Definition on_update (delta_time : Q) : M B unit :=
  a ← attr activeTank;
  call_tank a Tank.on_update ;;
  physics_engine_step delta_time.

(** [SpriteList.append]: a sprite that is already in the list is refused
    with [ValueError], and the list stays as it was. *)
Definition bullets_list_append (s : nat) : M B unit :=
  l ← attr bullets_list;
  if decide (s ∈ l) then raise ValueError
  else modify (set_bullets_list (Some (l ++ [s]))).

(** Lines 230-239. *)
Definition add_bullet (bullet : nat) (power : Q) : M B unit :=
  bullets_list_append bullet ;;
  e ← attr physics_engine;
  o ← gets (fun w => sprites w !! bullet);
  match o with
  | Some (Bullet b) =>
      modify (set_physics_engine (Some (PymunkPhysicsEngine.add_sprite bullet
        {| body_type := body_type default_body; collision_type := "bullet";
           body_mass := mass b; body_friction := friction b;
           body_damping := Some DAMPING; impulses := [] |} e))) ;;
      e ← attr physics_engine;
      match PymunkPhysicsEngine.apply_impulse bullet (power, 0%Q) e with
      | Some e' => modify (set_physics_engine (Some e'))
      | None => raise KeyError
      end
  | _ => raise AttributeError
  end.

(** How the engine delivers a collision between the sprites [a] and [b]:
    the post-collision handler registered for their collision types is
    called with the sprites in the order of its types. *)
Definition run_handler (h : handler) (a b : nat) : M B unit :=
  match h with
  | bullet_ground_handler_fn => bullet_ground_handler a b
  end.

Definition collision (a b : nat) : M B unit :=
  e ← attr physics_engine;
  match registry e !! a, registry e !! b with
  | Some ba, Some bb =>
      match PymunkPhysicsEngine.find_handler
              (collision_type ba) (collision_type bb) (handlers e) with
      | Some h => run_handler h a b
      | None =>
          match PymunkPhysicsEngine.find_handler
                  (collision_type bb) (collision_type ba) (handlers e) with
          | Some h => run_handler h b a
          | None => mret tt
          end
      end
  | _, _ => mret tt
  end.

(** [n] frames with the given time steps. *)
Definition frames (delta_times : list Q) : M B unit :=
  for_ delta_times on_update.

End Methods.
End BlackEarthGame.

(** ** The turn order as a state invariant

    [turn_order l k w]: the tank list is [l], the cycle was built from it,
    and [k] fire releases have advanced the cursor since: the active tank
    is the item at position [k mod length l]. *)
Definition turn_order {B} (l : list nat) (k : nat) (w : world B) : Prop :=
  l ≠ [] ∧
  tanksList w = Some l ∧
  tanksCycle w = Some (itertools.advance (S k) (itertools.new l)) ∧
  activeTank w = l !! (k `mod` length l)%nat.

(** ** A concrete configuration, for running the program *)

(** A world in which no attribute has been set yet. *)
Definition new_world {B} (colors : itertools.cycle color) : world B :=
  mkWorld ∅ ∅ colors None None None None None None None.

Record shell := mkShell { shell_mass : Q; shell_friction : Q; detonated : bool }.

Definition demo_window : WindowConfig :=
  {| WIDTH := 800; HEIGHT := 600; TITLE := "Black Earth" |}.

Definition demo_physics : PhysicsConfig :=
  {| GRAVITY := (-900)%Q; DAMPING := (1 # 2)%Q |}.

Definition demo_projectile : Projectile shell :=
  {| mass := shell_mass; friction := shell_friction;
     detonate := fun s => mkShell (shell_mass s) (shell_friction s) true |}.

(** A step that moves nothing. *)
Definition demo_step : PhysicsStep shell := {| step := fun _ a => a |}.

(** Two tanks built with the parameters [Tank.__init__] has, and the list
    of them. *)
Definition demo_tanks : world shell :=
  let w := new_world TANK_COLORS in
  let w := set_tanks
             (<[1%nat := Tank.__init__ "Player 2" (mkVec2d 200 200) BLUE]>
                (<[0%nat := Tank.__init__ "Player 1" (mkVec2d 100 200) RED]> ∅)) w in
  set_tanksList (Some [0%nat; 1%nat]) w.

(** The turn order of lines 154-157 and the rest of [setup] on top. *)
Definition demo_world : world shell :=
  snd ((BlackEarthGame.create_tanks_cycle ;;
        BlackEarthGame.create_environment (window := demo_window) ;;
        modify (set_bullets_list (Some [])) ;;
        BlackEarthGame.setup_physics_engine (physics := demo_physics) ;;
        BlackEarthGame.setup_physics_collisions) demo_tanks).

(** The same world with a projectile object (identity 1; the ground is 0)
    that has not been fired yet. *)
Definition demo_world_with_shell : world shell :=
  set_sprites (<[1%nat := Bullet (mkShell 5 (1 # 2) false)]> (sprites demo_world))
    demo_world.

(** The demo world after the active tank (identity 0) has had LEFT pressed:
    its turret is turning when the fire key is released. *)
Definition demo_world_left_held : world shell :=
  snd (BlackEarthGame.on_key_press key.LEFT 0 demo_world).

(** ** Driving a tank and the game with events *)

Definition tank_step (t : tank) (e : event) : tank :=
  match e with
  | KeyPress k m => Tank.on_key_press k m t
  | KeyRelease k m => Tank.on_key_release k m t
  | Update => Tank.on_update t
  end.

Definition tank_run (es : list event) (t : tank) : tank :=
  foldl tank_step t es.

(** What no method of [Tank] or [Turret] assigns after construction. *)
Definition tank_fixed (t t' : tank) : Prop :=
  name t' = name t /\ size t' = size t /\ position t' = position t /\
  tank_color t' = tank_color t /\
  turretname (turret_obj t') = turretname (turret_obj t) /\
  turret_position (turret_obj t') = turret_position (turret_obj t) /\
  turretcolor (turret_obj t') = turretcolor (turret_obj t) /\
  turretLength (turret_obj t') = turretLength (turret_obj t).

(** The events the window receives. *)
Inductive game_event :=
  | GKeyPress (k modifiers : Z)
  | GKeyRelease (k modifiers : Z)
  | GFrame (delta_time : Q).

(** The event as the active tank sees it. *)
Definition event_of (ev : game_event) : event :=
  match ev with
  | GKeyPress k m => KeyPress k m
  | GKeyRelease k m => KeyRelease k m
  | GFrame _ => Update
  end.

Definition is_quit (ev : game_event) : bool :=
  match ev with
  | GKeyRelease k _ => k =? key.ESCAPE
  | _ => false
  end.

Definition fire_count (ev : game_event) : nat :=
  match ev with
  | GKeyRelease k _ => if k =? key.SPACE then 1%nat else 0%nat
  | _ => 0%nat
  end.

(** The number of fire releases in a sequence of events. *)
Definition fires (es : list game_event) : nat :=
  foldr (fun ev n => (fire_count ev + n)%nat) 0%nat es.

(** [config.GameConfig]. *)
Class GameConfig := { NUM_TANKS : Z }.

Section Drivers.
Context {B : Type} {window : WindowConfig} {physics : PhysicsConfig}.
Context {projectile : Projectile B} {stepper : PhysicsStep B}.
Context {game : GameConfig}.

Definition game_step (ev : game_event) : M B unit :=
  match ev with
  | GKeyPress k m => BlackEarthGame.on_key_press k m
  | GKeyRelease k m => BlackEarthGame.on_key_release k m
  | GFrame dt => BlackEarthGame.on_update dt
  end.

Definition game_run (es : list game_event) : M B unit :=
  for_ es game_step.

(** The statements of [setup] after [create_tanks] (lines 51-59). *)
Definition setup_environment : M B unit :=
  BlackEarthGame.create_environment ;;
  modify (set_bullets_list (Some [])) ;;
  BlackEarthGame.setup_physics_engine ;;
  BlackEarthGame.setup_physics_collisions.

(** Lines 242-250; [run] is [arcade.run()], the event loop. *)
Definition main (run : M B unit) : M B unit :=
  BlackEarthGame.__init__ WIDTH HEIGHT TITLE ;;
  BlackEarthGame.setup NUM_TANKS ;;
  run.

End Drivers.

(** The demo world after two projectiles (identities 1 and 2) were fired. *)
Definition demo_two_shells : world shell :=
  let w := set_sprites
             (<[2%nat := Bullet (mkShell 7 (1 # 4) false)]>
                (sprites demo_world_with_shell)) demo_world_with_shell in
  snd ((BlackEarthGame.add_bullet (physics := demo_physics)
          (projectile := demo_projectile) 1%nat 100 ;;
        BlackEarthGame.add_bullet (physics := demo_physics)
          (projectile := demo_projectile) 2%nat 80) w).

(** * Properties *)

(** ** Turret *)

Section TurretFacts.
Implicit Types (t : turret) (k m : Z).

Lemma on_key_press_angle k m t :
  turretAngleDeg (Turret.on_key_press k m t) = turretAngleDeg t.
Proof.
  unfold Turret.on_key_press.
  destruct (k =? key.LEFT), (k =? key.RIGHT); reflexivity.
Qed.

Lemma on_key_release_angle k m t :
  turretAngleDeg (Turret.on_key_release k m t) = turretAngleDeg t.
Proof.
  unfold Turret.on_key_release.
  destruct (k =? key.LEFT), (k =? key.RIGHT), (k =? key.SPACE); reflexivity.
Qed.

Lemma on_update_speed t :
  turretSpeed (Turret.on_update t) = turretSpeed t.
Proof.
  unfold Turret.on_update.
  destruct (negb (turretSpeed t =? 0)); cbn;
    repeat (match goal with |- context [if ?c then _ else _] => destruct c end; cbn);
    reflexivity.
Qed.

(** The angle after one update, as a clamp. *)
Lemma on_update_angle t :
  turretAngleDeg (Turret.on_update t) =
  Z.max TURRET_ANGLE_MIN
    (Z.min TURRET_ANGLE_MAX (turretAngleDeg t + turretSpeed t)).
Proof.
  unfold Turret.on_update, TURRET_ANGLE_MIN, TURRET_ANGLE_MAX.
  destruct (Z.eqb_spec (turretSpeed t) 0) as [E|E]; cbn.
  - rewrite E, Z.add_0_r.
    destruct (Z.gtb_spec (turretAngleDeg t) 180); cbn; [lia|].
    destruct (Z.ltb_spec (turretAngleDeg t) 0); cbn; lia.
  - destruct (Z.gtb_spec (turretAngleDeg t + turretSpeed t) 180); cbn; [lia|].
    destruct (Z.ltb_spec (turretAngleDeg t + turretSpeed t) 0); cbn; lia.
Qed.

Lemma on_update_in_range t : angle_in_range (Turret.on_update t).
Proof.
  unfold angle_in_range. rewrite on_update_angle.
  unfold TURRET_ANGLE_MIN, TURRET_ANGLE_MAX. lia.
Qed.

Lemma turret_step_in_range t e :
  angle_in_range t -> angle_in_range (turret_step t e).
Proof.
  intros Ht. destruct e as [k m|k m|]; cbn.
  - unfold angle_in_range. rewrite on_key_press_angle. exact Ht.
  - unfold angle_in_range. rewrite on_key_release_angle. exact Ht.
  - apply on_update_in_range.
Qed.

Lemma turret_run_in_range es t :
  angle_in_range t -> angle_in_range (turret_run es t).
Proof.
  unfold turret_run. revert t.
  induction es as [|e es IH]; intros t Ht; cbn; [exact Ht|].
  apply IH, turret_step_in_range, Ht.
Qed.

Lemma turret_step_speed t e :
  turretSpeed t = - TURRET_SPEED_STEP \/ turretSpeed t = 0
    \/ turretSpeed t = TURRET_SPEED_STEP ->
  turretSpeed (turret_step t e) = - TURRET_SPEED_STEP
    \/ turretSpeed (turret_step t e) = 0
    \/ turretSpeed (turret_step t e) = TURRET_SPEED_STEP.
Proof.
  intros Ht. destruct e as [k m|k m|]; cbn.
  - unfold Turret.on_key_press.
    destruct (k =? key.LEFT), (k =? key.RIGHT); cbn; auto.
  - unfold Turret.on_key_release.
    destruct (k =? key.LEFT), (k =? key.RIGHT), (k =? key.SPACE); cbn; auto.
  - rewrite on_update_speed. exact Ht.
Qed.

Lemma turret_run_speed es t :
  turretSpeed t = - TURRET_SPEED_STEP \/ turretSpeed t = 0
    \/ turretSpeed t = TURRET_SPEED_STEP ->
  turretSpeed (turret_run es t) = - TURRET_SPEED_STEP
    \/ turretSpeed (turret_run es t) = 0
    \/ turretSpeed (turret_run es t) = TURRET_SPEED_STEP.
Proof.
  unfold turret_run. revert t.
  induction es as [|e es IH]; intros t Ht; cbn; [exact Ht|].
  apply IH, turret_step_speed, Ht.
Qed.

Lemma init_in_range n p c : angle_in_range (Turret.__init__ n p c).
Proof. unfold angle_in_range; cbn. unfold TURRET_ANGLE_MIN, TURRET_ANGLE_MAX, TANK_STARTING_ANGLE_DEG. lia. Qed.

Lemma updates_S j t : updates (S j) t = Turret.on_update (updates j t).
Proof. reflexivity. Qed.

Lemma updates_speed j t : turretSpeed (updates j t) = turretSpeed t.
Proof.
  induction j as [|j IH]; [reflexivity|].
  rewrite updates_S, on_update_speed. exact IH.
Qed.

(** [j] updates at a constant speed [s]: the angle moves by [j * s] and is
    clamped. *)
Lemma updates_angle j t :
  angle_in_range t ->
  turretAngleDeg (updates j t) =
  Z.max TURRET_ANGLE_MIN
    (Z.min TURRET_ANGLE_MAX (turretAngleDeg t + Z.of_nat j * turretSpeed t)).
Proof.
  unfold angle_in_range, TURRET_ANGLE_MIN, TURRET_ANGLE_MAX. intros Ht.
  induction j as [|j IH].
  - cbn. lia.
  - rewrite updates_S, on_update_angle, updates_speed, IH.
    unfold TURRET_ANGLE_MIN, TURRET_ANGLE_MAX.
    destruct (Z.le_gt_cases 0 (turretSpeed t)); nia.
Qed.

Lemma press_left_speed m t :
  turretSpeed (Turret.on_key_press key.LEFT m t) = TURRET_SPEED_STEP.
Proof. reflexivity. Qed.

Lemma press_right_speed m t :
  turretSpeed (Turret.on_key_press key.RIGHT m t) = - TURRET_SPEED_STEP.
Proof. reflexivity. Qed.

Lemma release_speed k m t :
  k = key.LEFT \/ k = key.RIGHT \/ k = key.SPACE ->
  turretSpeed (Turret.on_key_release k m t) = 0.
Proof. intros [->|[->| ->]]; reflexivity. Qed.

End TurretFacts.

(** C1.  Starting from a freshly constructed turret (angle 45), after any
    sequence of key presses, key releases and [update()] calls the turret
    angle lies in [[TURRET_ANGLE_MIN, TURRET_ANGLE_MAX]] = [[0, 180]].  The
    sequence is arbitrary, so this holds in particular after every
    [update()] call of a longer sequence (take the prefix that ends with
    that call).  The speed is always one of [-STEP], [0], [+STEP]. *)
Theorem turret_angle_always_in_range :
  forall (n : string) (p : Vec2d) (c : color) (es : list event),
    turretAngleDeg (Turret.__init__ n p c) = 45 /\
    0 <= turretAngleDeg (turret_run es (Turret.__init__ n p c)) <= 180 /\
    0 <= turretAngleDeg (turret_run (es ++ [Update]) (Turret.__init__ n p c)) <= 180 /\
    (turretSpeed (turret_run es (Turret.__init__ n p c)) = - TURRET_SPEED_STEP
     \/ turretSpeed (turret_run es (Turret.__init__ n p c)) = 0
     \/ turretSpeed (turret_run es (Turret.__init__ n p c)) = TURRET_SPEED_STEP).
Proof.
  intros n p c es. split; [reflexivity|].
  split; [apply (turret_run_in_range _ _ (init_in_range n p c))|].
  split; [apply (turret_run_in_range _ _ (init_in_range n p c))|].
  apply turret_run_speed. right; left; reflexivity.
Qed.

(** From any in-range angle: [j] updates after LEFT add
    [min (j * STEP) (MAX - angle)], after RIGHT subtract
    [min (j * STEP) (angle - MIN)]. *)
Lemma aim_updates_in_range (t : turret) (j : nat) (m : Z) :
  angle_in_range t ->
  turretAngleDeg (updates j (Turret.on_key_press key.LEFT m t)) =
    turretAngleDeg t
    + Z.min (Z.of_nat j * TURRET_SPEED_STEP) (TURRET_ANGLE_MAX - turretAngleDeg t)
  /\
  turretAngleDeg (updates j (Turret.on_key_press key.RIGHT m t)) =
    turretAngleDeg t
    - Z.min (Z.of_nat j * TURRET_SPEED_STEP) (turretAngleDeg t - TURRET_ANGLE_MIN).
Proof.
  intros Ht.
  assert (Hl : angle_in_range (Turret.on_key_press key.LEFT m t))
    by (unfold angle_in_range; rewrite on_key_press_angle; exact Ht).
  assert (Hr : angle_in_range (Turret.on_key_press key.RIGHT m t))
    by (unfold angle_in_range; rewrite on_key_press_angle; exact Ht).
  rewrite (updates_angle _ _ Hl), (updates_angle _ _ Hr).
  rewrite press_left_speed, press_right_speed, !on_key_press_angle.
  unfold angle_in_range, TURRET_ANGLE_MIN, TURRET_ANGLE_MAX, TURRET_SPEED_STEP in *.
  lia.
Qed.

(** C2.  On any turret the program can reach (a fresh turret driven by any
    event sequence), pressing aim-increase (LEFT) and updating [j] times
    raises the angle by exactly [min (j * STEP) (180 - angle)]; pressing
    aim-decrease (RIGHT) and updating [j] times lowers it by exactly
    [min (j * STEP) (angle - 0)].  Scenario: from the initial angle 45 with
    STEP = 2, LEFT and 10 updates give 65; then releasing LEFT, pressing
    RIGHT and 50 updates give exactly 0. *)
Theorem aim_then_updates :
  forall (n : string) (p : Vec2d) (c : color) (es : list event) (j : nat) (m : Z),
    let t := turret_run es (Turret.__init__ n p c) in
    let t1 := updates 10 (Turret.on_key_press key.LEFT m (Turret.__init__ n p c)) in
    let t2 := updates 50 (Turret.on_key_press key.RIGHT m
                            (Turret.on_key_release key.LEFT m t1)) in
    turretAngleDeg (updates j (Turret.on_key_press key.LEFT m t)) =
      turretAngleDeg t + Z.min (Z.of_nat j * TURRET_SPEED_STEP) (180 - turretAngleDeg t)
    /\
    turretAngleDeg (updates j (Turret.on_key_press key.RIGHT m t)) =
      turretAngleDeg t - Z.min (Z.of_nat j * TURRET_SPEED_STEP) (turretAngleDeg t - 0)
    /\
    TURRET_SPEED_STEP = 2 /\
    turretAngleDeg (Turret.__init__ n p c) = 45 /\
    turretAngleDeg t1 = 65 /\
    turretAngleDeg t2 = 0.
Proof.
  intros n p c es j m t t1 t2.
  assert (Ht : angle_in_range t)
    by apply (turret_run_in_range _ _ (init_in_range n p c)).
  destruct (aim_updates_in_range t j m Ht) as [Hl Hr].
  repeat split; [exact Hl | exact Hr].
Qed.

(** C7.  On any turret the program can reach, releasing LEFT, RIGHT or the
    fire key (SPACE) leaves the angular speed at 0, and the next
    [update()] leaves the angle unchanged. *)
Theorem release_stops_turret :
  forall (n : string) (p : Vec2d) (c : color) (es : list event) (k m : Z),
    k = key.LEFT \/ k = key.RIGHT \/ k = key.SPACE ->
    let t := Turret.on_key_release k m (turret_run es (Turret.__init__ n p c)) in
    turretSpeed t = 0 /\
    turretAngleDeg (Turret.on_update t) = turretAngleDeg t /\
    turretSpeed (Turret.on_update t) = 0.
Proof.
  intros n p c es k m Hk t.
  assert (Hs : turretSpeed t = 0) by (apply release_speed, Hk).
  assert (Hr : angle_in_range t).
  { unfold t, angle_in_range. rewrite on_key_release_angle.
    apply (turret_run_in_range _ _ (init_in_range n p c)). }
  split; [exact Hs|]. split.
  - rewrite on_update_angle, Hs.
    unfold angle_in_range, TURRET_ANGLE_MIN, TURRET_ANGLE_MAX in *. lia.
  - rewrite on_update_speed. exact Hs.
Qed.

Lemma release_stops_turret_witness :
  (key.SPACE = key.LEFT \/ key.SPACE = key.RIGHT \/ key.SPACE = key.SPACE) /\
  turretSpeed
    (Turret.on_key_release key.SPACE 0
       (turret_run [KeyPress key.LEFT 0; Update; Update]
          (Turret.__init__ "Player 1" (mkVec2d 100 200) RED))) = 0.
Proof.
  assert (H : key.SPACE = key.LEFT \/ key.SPACE = key.RIGHT \/ key.SPACE = key.SPACE)
    by (right; right; reflexivity).
  split; [exact H|].
  exact (proj1 (release_stops_turret "Player 1" (mkVec2d 100 200) RED
                  [KeyPress key.LEFT 0; Update; Update] key.SPACE 0 H)).
Defined.

(** C10.  The turret has no per-key state.  With LEFT held, pressing RIGHT
    sets the speed to [-STEP] (and the other way round to [+STEP]): the
    last press wins.  Releasing LEFT, RIGHT or SPACE sets the speed to 0
    whatever the turret's state, in particular while the other direction
    key is still held, and the turret then stays where it is. *)
Theorem last_press_wins_release_clears :
  forall (t : turret) (m : Z),
    turretSpeed (Turret.on_key_press key.RIGHT m (Turret.on_key_press key.LEFT m t))
      = - TURRET_SPEED_STEP /\
    turretSpeed (Turret.on_key_press key.LEFT m (Turret.on_key_press key.RIGHT m t))
      = TURRET_SPEED_STEP /\
    turretSpeed (Turret.on_key_release key.LEFT m t) = 0 /\
    turretSpeed (Turret.on_key_release key.RIGHT m t) = 0 /\
    turretSpeed (Turret.on_key_release key.SPACE m t) = 0 /\
    turretSpeed (Turret.on_key_release key.LEFT m
                   (Turret.on_key_press key.RIGHT m (Turret.on_key_press key.LEFT m t)))
      = 0 /\
    turretSpeed (Turret.on_key_release key.RIGHT m
                   (Turret.on_key_press key.LEFT m (Turret.on_key_press key.RIGHT m t)))
      = 0.
Proof. intros t m. repeat split. Qed.

(** ** [itertools.cycle] *)

Section CycleFacts.
Context {A : Type}.
Implicit Types (l : list A) (c : itertools.cycle A).

Lemma advance_S_r k c :
  itertools.advance (S k) c = snd (itertools.next (itertools.advance k c)).
Proof.
  revert c. induction k as [|k IH]; intros c; [reflexivity|].
  change (itertools.advance (S (S k)) c)
    with (itertools.advance (S k) (snd (itertools.next c))).
  rewrite IH. reflexivity.
Qed.

(** During the first pass the cycle has yielded and saved [take k l]. *)
Lemma advance_first_pass l k :
  (k <= length l)%nat ->
  itertools.advance k (itertools.new l)
  = itertools.mkCycle (drop k l) (take k l) 0.
Proof.
  induction k as [|k IH]; intros Hk.
  - rewrite drop_0, take_0. reflexivity.
  - rewrite advance_S_r, IH by lia.
    destruct (lookup_lt_is_Some_2 l k ltac:(lia)) as [x Hx].
    unfold itertools.next; cbn.
    rewrite (drop_S _ _ _ Hx), (take_S_r _ _ _ Hx). reflexivity.
Qed.

Lemma succ_mod (j n : nat) :
  n <> 0%nat ->
  (if decide (S (j `mod` n) < n)%nat then S (j `mod` n) else 0%nat)
  = (S j `mod` n)%nat.
Proof.
  intros Hn.
  pose proof (Nat.div_mod_eq j n) as Hj.
  pose proof (Nat.mod_upper_bound j n Hn) as Hr.
  case_decide as Hlt.
  - apply (Nat.mod_unique _ _ (j `div` n)%nat); lia.
  - apply (Nat.mod_unique _ _ (S (j `div` n))%nat); lia.
Qed.

(** After the first pass the saved items are replayed in order. *)
Lemma advance_replay l j :
  l <> [] ->
  itertools.advance (length l + j) (itertools.new l)
  = itertools.mkCycle [] l (j `mod` length l)%nat.
Proof.
  intros Hl.
  assert (Hn : length l <> 0%nat) by (destruct l; cbn; congruence).
  induction j as [|j IH].
  - rewrite Nat.add_0_r, advance_first_pass by lia.
    rewrite drop_all, firstn_all, Nat.Div0.mod_0_l. reflexivity.
  - rewrite Nat.add_succ_r, advance_S_r, IH.
    pose proof (Nat.mod_upper_bound j (length l) Hn) as Hr.
    destruct (lookup_lt_is_Some_2 l _ Hr) as [x Hx].
    unfold itertools.next; cbn. rewrite Hx; cbn.
    rewrite succ_mod by exact Hn. reflexivity.
Qed.

(** The [k]-th call of [next] (counting from 0) yields the item at
    position [k mod length l]. *)
Lemma next_advance l k :
  l <> [] ->
  itertools.next (itertools.advance k (itertools.new l))
  = (l !! (k `mod` length l)%nat, itertools.advance (S k) (itertools.new l)).
Proof.
  intros Hl.
  assert (Hn : length l <> 0%nat) by (destruct l; cbn; congruence).
  rewrite (surjective_pairing (itertools.next _)), <- advance_S_r. f_equal.
  destruct (decide (k < length l)%nat) as [Hk|Hk].
  - rewrite advance_first_pass, Nat.mod_small by lia.
    destruct (lookup_lt_is_Some_2 l k Hk) as [x Hx].
    unfold itertools.next; cbn. rewrite (drop_S _ _ _ Hx), Hx. reflexivity.
  - replace k with (length l + (k - length l))%nat at 1 by lia.
    rewrite advance_replay by exact Hl.
    pose proof (Nat.mod_upper_bound (k - length l) (length l) Hn) as Hr.
    destruct (lookup_lt_is_Some_2 l _ Hr) as [x Hx].
    unfold itertools.next; cbn. rewrite Hx; cbn. rewrite <- Hx. f_equal.
    replace k with ((k - length l) + 1 * length l)%nat at 2 by lia.
    rewrite Nat.Div0.mod_add. reflexivity.
Qed.

(** An empty iterable: [next] raises at once and the cycle stays as it was. *)
Lemma next_new_nil :
  itertools.next (itertools.new (@nil A)) = (None, itertools.new []).
Proof. reflexivity. Qed.

End CycleFacts.

(** ** The game: turn order, key routing and frame updates *)

Ltac run_M :=
  unfold next_of, attr, gets, modify, raise, mbind, M_bind, mret, M_ret;
  cbn -[itertools.next itertools.advance].

Section GameFacts.
Context {B : Type} {window : WindowConfig} {physics : PhysicsConfig}.
Context {projectile : Projectile B} {stepper : PhysicsStep B}.
Implicit Types (w : world B) (l : list nat).

Lemma bind_Return {A C} (m : M B A) (f : A -> M B C) w a w' :
  m w = (Return a, w') -> (m ≫= f) w = f a w'.
Proof. unfold mbind, M_bind. intros ->. reflexivity. Qed.

Lemma lookup_mod_Some l k :
  l <> [] -> exists a, l !! (k `mod` length l)%nat = Some a.
Proof.
  intros Hl.
  assert (Hn : length l <> 0%nat) by (destruct l; cbn; congruence).
  exact (lookup_lt_is_Some_2 l _ (Nat.mod_upper_bound k _ Hn)).
Qed.

(** Lines 154-157 on a non-empty tank list: the first tank is active. *)
Lemma create_tanks_cycle_turn_order l w :
  tanksList w = Some l -> l <> [] ->
  exists w',
    BlackEarthGame.create_tanks_cycle w = (Return tt, w') /\
    turn_order l 0 w' /\ tanks w' = tanks w.
Proof.
  intros HL Hl.
  destruct (lookup_mod_Some l 0 Hl) as [a Ha].
  unfold BlackEarthGame.create_tanks_cycle. run_M. rewrite HL; cbn.
  change (itertools.new l) with (itertools.advance 0 (itertools.new l)) at 1.
  rewrite (next_advance l 0 Hl), Ha.
  eexists; split; [reflexivity|]. split; [|reflexivity].
  unfold turn_order; cbn. rewrite Ha. auto.
Qed.

(** A fire release in turn [k]: the active tank gets the release, then the
    cursor moves to turn [k + 1]. *)
Lemma fire_release l k m w a :
  turn_order l k w ->
  activeTank w = Some a ->
  exists w',
    BlackEarthGame.on_key_release key.SPACE m w = (Return tt, w') /\
    turn_order l (S k) w' /\
    tanks w' = alter (Tank.on_key_release key.SPACE m) a (tanks w).
Proof.
  intros (Hl & HL & HC & HA) Ha.
  destruct (lookup_mod_Some l (S k) Hl) as [a' Ha'].
  unfold BlackEarthGame.on_key_release, BlackEarthGame.call_tank. run_M.
  rewrite Ha; cbn. rewrite HC, (next_advance l (S k) Hl), Ha'.
  eexists; split; [reflexivity|]. split; [|reflexivity].
  unfold turn_order; cbn. rewrite Ha'. auto.
Qed.

Lemma turn_order_active l k w :
  turn_order l k w -> exists a, activeTank w = Some a.
Proof.
  intros (Hl & _ & _ & HA). destruct (lookup_mod_Some l k Hl) as [a Ha].
  exists a. rewrite HA. exact Ha.
Qed.

Lemma times_fire_release l m n : forall k w,
  turn_order l k w ->
  exists w',
    times n (BlackEarthGame.on_key_release key.SPACE m) w = (Return tt, w') /\
    turn_order l (k + n) w'.
Proof.
  induction n as [|n IH]; intros k w Hw.
  - exists w. rewrite Nat.add_0_r. split; [reflexivity|exact Hw].
  - destruct (turn_order_active l k w Hw) as [a Ha].
    destruct (fire_release l k m w a Hw Ha) as (w1 & E1 & Hw1 & _).
    destruct (IH (S k) w1 Hw1) as (w' & E' & Hw').
    exists w'. split.
    + exact (eq_trans (bind_Return _ _ _ _ _ E1) E').
    + replace (k + S n)%nat with (S k + n)%nat by lia. exact Hw'.
Qed.

(** Key releases other than the fire key, and all key presses, leave the
    turn order alone (whether or not the call returns). *)
Lemma other_release_keeps_turn k m w :
  k <> key.SPACE ->
  activeTank (snd (BlackEarthGame.on_key_release k m w)) = activeTank w /\
  tanksCycle (snd (BlackEarthGame.on_key_release k m w)) = tanksCycle w /\
  tanksList (snd (BlackEarthGame.on_key_release k m w)) = tanksList w.
Proof.
  intros Hk. apply Z.eqb_neq in Hk.
  unfold BlackEarthGame.on_key_release, BlackEarthGame.call_tank. run_M.
  destruct (k =? key.ESCAPE); cbn; [auto|].
  destruct (activeTank w) eqn:Ea; cbn; [|auto].
  rewrite Hk; cbn. auto.
Qed.

Lemma press_keeps_turn k m w :
  activeTank (snd (BlackEarthGame.on_key_press k m w)) = activeTank w /\
  tanksCycle (snd (BlackEarthGame.on_key_press k m w)) = tanksCycle w /\
  tanksList (snd (BlackEarthGame.on_key_press k m w)) = tanksList w.
Proof.
  unfold BlackEarthGame.on_key_press, BlackEarthGame.call_tank. run_M.
  destruct (activeTank w) eqn:Ea; cbn; auto.
Qed.

(** One frame: the active tank is updated, the engine steps, and nothing
    else about the tanks or the turn order changes. *)
Lemma on_update_frame dt w a e :
  activeTank w = Some a -> physics_engine w = Some e ->
  exists w' e',
    BlackEarthGame.on_update dt w = (Return tt, w') /\
    activeTank w' = Some a /\ physics_engine w' = Some e' /\
    tanksCycle w' = tanksCycle w /\ tanksList w' = tanksList w /\
    tanks w' = alter Tank.on_update a (tanks w).
Proof.
  intros Ha He.
  unfold BlackEarthGame.on_update, BlackEarthGame.call_tank,
    BlackEarthGame.physics_engine_step. run_M.
  rewrite Ha; cbn. rewrite He; cbn.
  eexists _, _. repeat split; eauto.
Qed.

Lemma frames_spec dts : forall w a e,
  activeTank w = Some a -> physics_engine w = Some e ->
  exists w' e',
    BlackEarthGame.frames dts w = (Return tt, w') /\
    activeTank w' = Some a /\ physics_engine w' = Some e' /\
    tanksCycle w' = tanksCycle w /\ tanksList w' = tanksList w /\
    (forall r, r <> a -> tanks w' !! r = tanks w !! r) /\
    tanks w' !! a = Nat.iter (length dts) Tank.on_update <$> tanks w !! a.
Proof.
  induction dts as [|dt dts IH]; intros w a e Ha He.
  - exists w, e. repeat split; auto.
    destruct (tanks w !! a); reflexivity.
  - destruct (on_update_frame dt w a e Ha He)
      as (w1 & e1 & E1 & Ha1 & He1 & HC1 & HL1 & HT1).
    destruct (IH w1 a e1 Ha1 He1) as (w' & e' & E' & Ha' & He' & HC' & HL' & Ho' & Hs').
    exists w', e'. repeat split; auto; try congruence.
    + exact (eq_trans (bind_Return _ _ _ _ _ E1) E').
    + intros r Hr. rewrite (Ho' r Hr), HT1. apply lookup_alter_ne. congruence.
    + rewrite Hs', HT1, lookup_alter_eq.
      destruct (tanks w !! a) as [t|]; [|reflexivity].
      cbn [fmap option_fmap option_map length]. rewrite Nat.iter_succ_r. reflexivity.
Qed.

End GameFacts.

(** ** Projectiles, failures of [create_tanks], and the claims about the game *)

Ltac world_simpl :=
  cbv [set_tanks set_sprites set_COLORS set_background_color set_tanksList
       set_tanksCycle set_activeTank set_ground set_bullets_list
       set_physics_engine PymunkPhysicsEngine.add_sprite
       PymunkPhysicsEngine.apply_impulse PymunkPhysicsEngine.add_impulse
       PymunkPhysicsEngine.remove_sprite];
  cbn [tanks sprites COLORS background_color tanksList tanksCycle activeTank
       ground bullets_list physics_engine fmap option_fmap option_map
       gravity damping registry handlers body_type collision_type body_mass
       body_friction body_damping impulses default_body app].

Section GameClaims.
Context {B : Type} {window : WindowConfig} {physics : PhysicsConfig}.
Context {projectile : Projectile B} {stepper : PhysicsStep B}.
Implicit Types (w : world B) (l : list nat).

Lemma bind_Raise {A C} (m : M B A) (f : A -> M B C) w e w' :
  m w = (Raise e, w') -> (m ≫= f) w = (Raise e, w').
Proof. unfold mbind, M_bind. intros ->. reflexivity. Qed.

Lemma filter_ne_notin (x : nat) l : x ∉ l -> filter (.≠ x) l = l.
Proof.
  induction l as [|y l IH]; intros Hx; [reflexivity|].
  apply not_elem_of_cons in Hx as [Hxy Hx].
  rewrite filter_cons_True by congruence. rewrite IH by exact Hx. reflexivity.
Qed.

Lemma add_bullet_spec w bullet power b l e :
  bullets_list w = Some l ->
  bullet ∉ l ->
  physics_engine w = Some e ->
  registry e !! bullet = None ->
  sprites w !! bullet = Some (Bullet b) ->
  BlackEarthGame.add_bullet bullet power w =
    (Return tt,
     set_physics_engine
       (Some (mkEngine (gravity e) (damping e)
                (<[bullet := mkBody DYNAMIC "bullet" (mass b) (friction b)
                               (Some DAMPING) [(power, 0%Q)]]> (registry e))
                (handlers e)))
       (set_bullets_list (Some (l ++ [bullet])) w)).
Proof.
  intros HL Hnotin He Hnew Hb.
  unfold BlackEarthGame.add_bullet, BlackEarthGame.bullets_list_append. run_M.
  rewrite HL; world_simpl. rewrite (decide_False _ _ Hnotin); world_simpl.
  rewrite He; world_simpl. rewrite Hb; world_simpl.
  rewrite Hnew; world_simpl.
  rewrite lookup_insert_eq. world_simpl.
  rewrite insert_insert_eq. reflexivity.
Qed.

Lemma collision_spec w bullet g b l e bb bg :
  bullets_list w = Some l ->
  physics_engine w = Some e ->
  sprites w !! bullet = Some (Bullet b) ->
  registry e !! bullet = Some bb -> collision_type bb = "bullet" ->
  registry e !! g = Some bg -> collision_type bg = "ground" ->
  PymunkPhysicsEngine.find_handler "bullet" "ground" (handlers e)
    = Some bullet_ground_handler_fn ->
  BlackEarthGame.collision bullet g w =
    (Return tt,
     set_physics_engine (Some (PymunkPhysicsEngine.remove_sprite bullet e))
       (set_bullets_list (Some (filter (.≠ bullet) l))
          (set_sprites (<[bullet := Bullet (detonate b)]> (sprites w)) w))).
Proof.
  intros HL He Hb Hbb Tb Hbg Tg Hh.
  unfold BlackEarthGame.collision. run_M. rewrite He; world_simpl.
  rewrite Hbb, Hbg, Tb, Tg, Hh.
  unfold BlackEarthGame.run_handler, BlackEarthGame.bullet_ground_handler,
    BlackEarthGame.sprite_detonate, BlackEarthGame.remove_from_sprite_lists.
  run_M. rewrite Hb; world_simpl. rewrite HL, He. reflexivity.
Qed.

(** The keywords of the call on line 135 do not fit [Tank.__init__]. *)
Lemma new_Tank_with_parent nm pos c w :
  BlackEarthGame.new_Tank ["name"; "parent"; "position"; "color"] nm pos c w
  = (Raise TypeError, w).
Proof. reflexivity. Qed.

(** One frame, whether or not it returns. *)
Lemma on_update_keeps_others dt w :
  activeTank (snd (BlackEarthGame.on_update dt w)) = activeTank w /\
  tanksCycle (snd (BlackEarthGame.on_update dt w)) = tanksCycle w /\
  tanksList (snd (BlackEarthGame.on_update dt w)) = tanksList w /\
  (forall r, activeTank w <> Some r ->
             tanks (snd (BlackEarthGame.on_update dt w)) !! r = tanks w !! r).
Proof.
  unfold BlackEarthGame.on_update, BlackEarthGame.call_tank,
    BlackEarthGame.physics_engine_step. run_M.
  destruct (activeTank w) as [a|] eqn:Ea; world_simpl; [|auto].
  destruct (physics_engine w) as [e|] eqn:Ee; world_simpl; cbn [snd];
    world_simpl; repeat split; auto;
    intros r Hr; apply lookup_alter_ne; congruence.
Qed.

Lemma frames_keep_others dts : forall w,
  activeTank (snd (BlackEarthGame.frames dts w)) = activeTank w /\
  tanksCycle (snd (BlackEarthGame.frames dts w)) = tanksCycle w /\
  tanksList (snd (BlackEarthGame.frames dts w)) = tanksList w /\
  (forall r, activeTank w <> Some r ->
             tanks (snd (BlackEarthGame.frames dts w)) !! r = tanks w !! r).
Proof.
  induction dts as [|dt dts IH]; intros w; [cbn; auto|].
  pose proof (on_update_keeps_others dt w) as (Ha & Hc & Hl & Ht).
  change (BlackEarthGame.frames (dt :: dts) w)
    with ((BlackEarthGame.on_update dt ≫= fun _ => BlackEarthGame.frames dts) w).
  unfold mbind, M_bind.
  destruct (BlackEarthGame.on_update dt w) as [[u|e] w1]; cbn [snd] in *.
  - destruct (IH w1) as (Ha' & Hc' & Hl' & Ht').
    repeat split; try congruence.
    intros r Hr. rewrite Ht' by congruence. apply Ht, Hr.
  - auto.
Qed.

(** C3.  In turn [k] of the turn order over [l], a fire-key (SPACE) release
    returns normally; the release has been applied to the tank that was
    active when the key event arrived (and to no other tank): that tank's
    turret has received [on_key_release], so its speed is 0 and its angle
    is as it was; and the cursor has then moved exactly one place, to the
    next tank in circular order.  No other key release and no key press
    changes the active tank or the cycle. *)
Theorem fire_release_forwards_then_advances :
  forall (l : list nat) (k : nat) (m : Z) (w : world B),
    turn_order l k w ->
    (exists a w',
       activeTank w = Some a /\
       l !! (k `mod` length l)%nat = Some a /\
       BlackEarthGame.on_key_release key.SPACE m w = (Return tt, w') /\
       tanks w' !! a = Tank.on_key_release key.SPACE m <$> tanks w !! a /\
       (forall t, tanks w !! a = Some t ->
          exists t',
            tanks w' !! a = Some t' /\
            turret_obj t' = Turret.on_key_release key.SPACE m (turret_obj t) /\
            turretSpeed (turret_obj t') = 0 /\
            turretAngleDeg (turret_obj t') = turretAngleDeg (turret_obj t)) /\
       (forall r, r <> a -> tanks w' !! r = tanks w !! r) /\
       activeTank w' = l !! (S k `mod` length l)%nat /\
       turn_order l (S k) w') /\
    (forall k' m', k' <> key.SPACE ->
       activeTank (snd (BlackEarthGame.on_key_release k' m' w)) = activeTank w /\
       tanksCycle (snd (BlackEarthGame.on_key_release k' m' w)) = tanksCycle w) /\
    (forall k' m',
       activeTank (snd (BlackEarthGame.on_key_press k' m' w)) = activeTank w /\
       tanksCycle (snd (BlackEarthGame.on_key_press k' m' w)) = tanksCycle w).
Proof.
  intros l k m w Hw. split; [|split].
  - destruct (turn_order_active l k w Hw) as [a Ha].
    destruct (fire_release l k m w a Hw Ha) as (w' & E & Hw' & Ht).
    exists a, w'.
    split; [exact Ha|]. split; [destruct Hw as (_ & _ & _ & HA); congruence|].
    split; [exact E|]. split; [rewrite Ht; apply lookup_alter_eq|].
    split.
    { intros t Ht0. rewrite Ht, lookup_alter_eq, Ht0.
      eexists. split; [reflexivity|]. split; [reflexivity|].
      split; [reflexivity|]. apply on_key_release_angle. }
    split; [intros r Hr; rewrite Ht; apply lookup_alter_ne; congruence|].
    split; [|exact Hw']. destruct Hw' as (_ & _ & _ & HA'). exact HA'.
  - intros k' m' Hk.
    destruct (other_release_keeps_turn k' m' w Hk) as (Ha & Hc & _). auto.
  - intros k' m'. destruct (press_keeps_turn k' m' w) as (Ha & Hc & _). auto.
Qed.

(** C4.  [add_bullet] on a new projectile, one that is neither in the
    render list nor registered with the engine yet:
    the render list gains the projectile once, at the end; the engine
    registers it as a dynamic body of collision type "bullet" with the
    projectile's mass and friction and the configured damping, and with the
    single impulse [(power, 0)]; other registrations are untouched.  When
    the engine then reports a collision of the projectile with a body of
    type "ground", the handler installed for ("bullet", "ground") calls
    [detonate()] on the projectile and removes it: it is absent from the
    render list, whose length has gone down by exactly 1. *)
Theorem add_bullet_then_ground_collision :
  forall (w : world B) (bullet g : nat) (power : Q) (b : B)
         (l : list nat) (e : engine) (bg : body),
    bullets_list w = Some l ->
    bullet ∉ l ->
    physics_engine w = Some e ->
    registry e !! bullet = None ->
    sprites w !! bullet = Some (Bullet b) ->
    registry e !! g = Some bg ->
    collision_type bg = "ground" ->
    g <> bullet ->
    PymunkPhysicsEngine.find_handler "bullet" "ground" (handlers e)
      = Some bullet_ground_handler_fn ->
    exists w1 e1 w2 l2,
      BlackEarthGame.add_bullet bullet power w = (Return tt, w1) /\
      bullets_list w1 = Some (l ++ [bullet]) /\
      physics_engine w1 = Some e1 /\
      registry e1 !! bullet
        = Some (mkBody DYNAMIC "bullet" (mass b) (friction b) (Some DAMPING)
                  [(power, 0%Q)]) /\
      (forall s, s <> bullet -> registry e1 !! s = registry e !! s) /\
      BlackEarthGame.collision bullet g w1 = (Return tt, w2) /\
      sprites w2 !! bullet = Some (Bullet (detonate b)) /\
      bullets_list w2 = Some l2 /\
      (bullet ∉ l2) /\
      (length l2 + 1 = length (l ++ [bullet]))%nat.
Proof.
  intros w bullet g power b l e bg HL Hnotin He Hnew Hb Hg Tg Hne Hh.
  pose proof (add_bullet_spec w bullet power b l e HL Hnotin He Hnew Hb) as E1.
  set (body1 := mkBody DYNAMIC "bullet" (mass b) (friction b) (Some DAMPING)
                  [(power, 0%Q)]) in *.
  set (e1 := mkEngine (gravity e) (damping e) (<[bullet := body1]> (registry e))
               (handlers e)) in *.
  set (w1 := set_physics_engine (Some e1)
               (set_bullets_list (Some (l ++ [bullet])) w)) in *.
  assert (Hreg : registry e1 !! bullet = Some body1) by apply lookup_insert_eq.
  assert (Hoth : forall s, s <> bullet -> registry e1 !! s = registry e !! s).
  { intros s Hs. apply lookup_insert_ne. congruence. }
  pose proof (collision_spec w1 bullet g b (l ++ [bullet]) e1 body1 bg
                eq_refl eq_refl Hb Hreg eq_refl
                (eq_trans (Hoth g Hne) Hg) Tg Hh) as E2.
  eexists w1, e1, _, l. split; [exact E1|].
  split; [reflexivity|]. split; [reflexivity|].
  split; [exact Hreg|]. split; [exact Hoth|].
  split; [exact E2|]. split; [apply lookup_insert_eq|].
  split.
  - world_simpl. f_equal. rewrite filter_app, (filter_ne_notin _ _ Hnotin).
    rewrite filter_cons_False, filter_nil by (intros Hx; apply Hx; reflexivity).
    apply app_nil_r.
  - split; [exact Hnotin|]. rewrite length_app. reflexivity.
Qed.

(** C5 (what the code does).  For every [num_tanks >= 1], [create_tanks],
    and so [setup], raises in the first pass of the loop: [TypeError] from
    the constructor call, which passes a keyword [parent] that
    [Tank.__init__] does not have ([StopIteration] instead if the colour
    cycle is empty).  No tank is constructed, the tank list stays empty and
    no active tank is set. *)
Theorem create_tanks_raises :
  forall (num_tanks : Z) (w : world B),
    1 <= num_tanks ->
    exists e w',
      BlackEarthGame.create_tanks num_tanks w = (Raise e, w') /\
      BlackEarthGame.setup num_tanks w = (Raise e, w') /\
      e = match fst (itertools.next (COLORS w)) with
          | Some _ => TypeError
          | None => StopIteration
          end /\
      tanks w' = tanks w /\
      tanksList w' = Some [] /\
      activeTank w' = activeTank w.
Proof.
  intros n w Hn.
  assert (E : exists e w',
    BlackEarthGame.create_tanks n w = (Raise e, w') /\
    e = match fst (itertools.next (COLORS w)) with
          | Some _ => TypeError
          | None => StopIteration
          end /\
    tanks w' = tanks w /\ tanksList w' = Some [] /\ activeTank w' = activeTank w).
  { unfold BlackEarthGame.create_tanks.
    rewrite seqZ_cons by lia. cbn [for_]. run_M.
    destruct (itertools.next (COLORS w)) as [[c|] cs]; world_simpl.
    - rewrite new_Tank_with_parent. eexists _, _. repeat split.
    - eexists _, _. repeat split. }
  destruct E as (e & w' & E & He & Ht & Hl & Ha).
  exists e, w'. repeat split; auto.
  unfold BlackEarthGame.setup. apply bind_Raise, E.
Qed.

(** C6.  Any number of frame updates, whether or not they return, leave
    the active tank, the cycle and the tank list as they were, and leave
    every tank other than the active one unchanged (so its turret angle and
    speed too).  With an active tank and a physics engine in place the
    frames all return, and the active tank has had [on_update] called once
    per frame. *)
Theorem frame_updates_touch_only_active_tank :
  forall (dts : list Q) (w : world B),
    (activeTank (snd (BlackEarthGame.frames dts w)) = activeTank w /\
     tanksCycle (snd (BlackEarthGame.frames dts w)) = tanksCycle w /\
     tanksList (snd (BlackEarthGame.frames dts w)) = tanksList w /\
     (forall r, activeTank w <> Some r ->
        tanks (snd (BlackEarthGame.frames dts w)) !! r = tanks w !! r)) /\
    (forall a e,
       activeTank w = Some a -> physics_engine w = Some e ->
       exists w',
         BlackEarthGame.frames dts w = (Return tt, w') /\
         tanks w' !! a = Nat.iter (length dts) Tank.on_update <$> tanks w !! a).
Proof.
  intros dts w. split; [apply frames_keep_others|].
  intros a e Ha He.
  destruct (frames_spec dts w a e Ha He) as (w' & e' & E & _ & _ & _ & _ & _ & Hs).
  exists w'. auto.
Qed.

(** C8.  For a non-empty tank list [l], after the turn order has been set
    up (lines 154-157) and the cursor advanced by any number [j] of fire
    releases, [length l] further fire releases all return and the tank
    that was active is active again. *)
Theorem turn_order_is_circular :
  forall (l : list nat) (j : nat) (m : Z) (w : world B),
    tanksList w = Some l ->
    l <> [] ->
    exists w0 wj wN a,
      BlackEarthGame.create_tanks_cycle w = (Return tt, w0) /\
      times j (BlackEarthGame.on_key_release key.SPACE m) w0 = (Return tt, wj) /\
      activeTank wj = Some a /\
      l !! (j `mod` length l)%nat = Some a /\
      times (length l) (BlackEarthGame.on_key_release key.SPACE m) wj
        = (Return tt, wN) /\
      activeTank wN = Some a.
Proof.
  intros l j m w HL Hl.
  destruct (create_tanks_cycle_turn_order l w HL Hl) as (w0 & E0 & H0 & _).
  destruct (times_fire_release l m j 0 w0 H0) as (wj & Ej & Hj).
  destruct (times_fire_release l m (length l) _ wj Hj) as (wN & EN & HN).
  destruct (lookup_mod_Some l j Hl) as [a Ha].
  exists w0, wj, wN, a. cbn [Nat.add] in *.
  destruct Hj as (_ & _ & _ & Aj). destruct HN as (_ & _ & _ & AN).
  repeat split; auto; try congruence.
  rewrite AN. replace (j + length l)%nat with (j + 1 * length l)%nat by lia.
  rewrite Nat.Div0.mod_add. exact Ha.
Qed.

(** C9 (as the code has it).  With no tanks, [create_tanks] fails while it
    builds the turn order: the first [next] on the cycle over the empty
    list raises [StopIteration], which is not an InvalidTurnOrder error;
    the tank list is empty, the cycle is the empty one and no active tank
    has been set. *)
Theorem create_tanks_empty_raises_StopIteration :
  forall (w : world B),
    exists w',
      BlackEarthGame.create_tanks 0 w = (Raise StopIteration, w') /\
      BlackEarthGame.setup 0 w = (Raise StopIteration, w') /\
      exn_name StopIteration <> "InvalidTurnOrder" /\
      tanksList w' = Some [] /\
      tanksCycle w' = Some (itertools.new []) /\
      activeTank w' = activeTank w.
Proof.
  intros w.
  assert (E : BlackEarthGame.create_tanks 0 w
              = (Raise StopIteration,
                 set_tanksCycle (Some (itertools.new []))
                   (set_tanksList (Some []) w))) by reflexivity.
  eexists. split; [exact E|]. split; [|repeat split; discriminate].
  unfold BlackEarthGame.setup. apply bind_Raise, E.
Qed.

End GameClaims.

(** ** The theorems at concrete inputs *)

Lemma fire_release_forwards_then_advances_witness :
  turn_order [0%nat; 1%nat] 0 demo_world_left_held /\
  activeTank demo_world_left_held = Some 0%nat /\
  (turretSpeed ∘ turret_obj) <$> tanks demo_world_left_held !! 0%nat = Some 2 /\
  exists w' t',
    BlackEarthGame.on_key_release key.SPACE 0 demo_world_left_held
      = (Return tt, w') /\
    activeTank w' = Some 1%nat /\
    tanks w' !! 0%nat = Some t' /\
    turretSpeed (turret_obj t') = 0.
Proof.
  assert (H : turn_order [0%nat; 1%nat] 0 demo_world_left_held)
    by (repeat split; [discriminate | reflexivity ..]).
  split; [exact H|]. split; [reflexivity|]. split; [reflexivity|].
  destruct (fire_release_forwards_then_advances [0%nat; 1%nat] 0 0
              demo_world_left_held H)
    as [(a & w' & Ha & _ & E & _ & Hturret & _ & Hact & _) _].
  assert (Ha0 : Some 0%nat = Some a) by exact Ha.
  injection Ha0 as <-.
  edestruct (Hturret _ eq_refl) as (t' & Ht' & _ & Hs & _).
  exists w', t'. split; [exact E|]. split; [exact Hact|].
  split; [exact Ht'|exact Hs].
Defined.

Lemma add_bullet_then_ground_collision_witness :
  bullets_list demo_world_with_shell = Some [] /\
  exists w1 w2,
    BlackEarthGame.add_bullet (physics := demo_physics)
      (projectile := demo_projectile) 1%nat 100 demo_world_with_shell
      = (Return tt, w1) /\
    bullets_list w1 = Some [1%nat] /\
    BlackEarthGame.collision (projectile := demo_projectile) 1%nat 0%nat w1
      = (Return tt, w2) /\
    bullets_list w2 = Some [].
Proof.
  split; [reflexivity|].
  destruct (add_bullet_then_ground_collision (physics := demo_physics)
              (projectile := demo_projectile)
              demo_world_with_shell 1%nat 0%nat 100
              (mkShell 5 (1 # 2) false) []
              (mkEngine (0%Q, (-900)%Q) (1 # 2)
                 {[ 0%nat := mkBody STATIC "ground" 1 (2 # 10) None [] ]}
                 [("bullet", "ground", bullet_ground_handler_fn)])
              (mkBody STATIC "ground" 1 (2 # 10) None []))
    as (w1 & e1 & w2 & l2 & E1 & L1 & _ & _ & _ & E2 & _ & L2 & _ & Hlen);
    [ reflexivity | apply not_elem_of_nil | reflexivity | reflexivity
    | reflexivity | reflexivity | reflexivity | discriminate | reflexivity | ].
  exists w1, w2. split; [exact E1|]. split; [exact L1|]. split; [exact E2|].
  rewrite L2. destruct l2; [reflexivity|]. cbn in Hlen. lia.
Defined.

Lemma create_tanks_raises_witness :
  1 <= 2 /\
  fst (BlackEarthGame.setup (window := demo_window) (physics := demo_physics)
         2 (new_world TANK_COLORS : world shell))
    = Raise TypeError.
Proof.
  assert (H : 1 <= 2) by lia.
  split; [exact H|].
  destruct (create_tanks_raises (window := demo_window) (physics := demo_physics)
              2 (new_world TANK_COLORS : world shell) H)
    as (e & w' & _ & E & He & _).
  rewrite E. cbn [fst]. rewrite He. reflexivity.
Defined.

Lemma frame_updates_touch_only_active_tank_witness :
  activeTank demo_world = Some 0%nat /\
  is_Some (physics_engine demo_world) /\
  exists w',
    BlackEarthGame.frames (stepper := demo_step) [1 # 60; 1 # 60]%Q demo_world
      = (Return tt, w') /\
    tanks w' !! 0%nat
      = Nat.iter 2 Tank.on_update <$> tanks demo_world !! 0%nat.
Proof.
  split; [reflexivity|]. split; [eexists; reflexivity|].
  exact (proj2 (frame_updates_touch_only_active_tank (stepper := demo_step)
                  [1 # 60; 1 # 60]%Q demo_world)
           0%nat
           (mkEngine (0%Q, (-900)%Q) (1 # 2)
              {[ 0%nat := mkBody STATIC "ground" 1 (2 # 10) None [] ]}
              [("bullet", "ground", bullet_ground_handler_fn)])
           eq_refl eq_refl).
Defined.

Lemma turn_order_is_circular_witness :
  tanksList demo_tanks = Some [0%nat; 1%nat] /\
  [0%nat; 1%nat] <> [] /\
  exists w0 wj wN a,
    BlackEarthGame.create_tanks_cycle demo_tanks = (Return tt, w0) /\
    times 3 (BlackEarthGame.on_key_release key.SPACE 0) w0 = (Return tt, wj) /\
    activeTank wj = Some a /\
    [0%nat; 1%nat] !! (3 `mod` 2)%nat = Some a /\
    times 2 (BlackEarthGame.on_key_release key.SPACE 0) wj = (Return tt, wN) /\
    activeTank wN = Some a.
Proof.
  split; [reflexivity|]. split; [discriminate|].
  exact (turn_order_is_circular [0%nat; 1%nat] 3 0 demo_tanks eq_refl
           ltac:(discriminate)).
Defined.

(** C9 as the spec has it fails: the exception [create_tanks] raises for
    zero tanks is not an InvalidTurnOrder error. *)
Lemma create_tanks_empty_not_InvalidTurnOrder :
  ~ (exists e w',
       BlackEarthGame.create_tanks (window := demo_window) 0
         (new_world TANK_COLORS : world shell) = (Raise e, w') /\
       exn_name e = "InvalidTurnOrder").
Proof.
  intros (e & w' & E & He).
  assert (E' : BlackEarthGame.create_tanks (window := demo_window) 0
                 (new_world TANK_COLORS : world shell)
               = (Raise StopIteration,
                  set_tanksCycle (Some (itertools.new []))
                    (set_tanksList (Some []) (new_world TANK_COLORS))))
    by reflexivity.
  rewrite E' in E. injection E as <- _. discriminate He.
Qed.

(** * Further properties of the code *)

(** ** Turret and tank *)

Section MoreTurretFacts.
Implicit Types (t : turret) (k m : Z).

Lemma on_update_keeps_labels t :
  turretname (Turret.on_update t) = turretname t /\
  turret_position (Turret.on_update t) = turret_position t /\
  turretcolor (Turret.on_update t) = turretcolor t /\
  turretLength (Turret.on_update t) = turretLength t.
Proof.
  unfold Turret.on_update.
  destruct (negb (turretSpeed t =? 0)); cbn;
    repeat (match goal with |- context [if ?c then _ else _] => destruct c end; cbn);
    auto.
Qed.

Lemma on_key_press_keeps_labels k m t :
  turretname (Turret.on_key_press k m t) = turretname t /\
  turret_position (Turret.on_key_press k m t) = turret_position t /\
  turretcolor (Turret.on_key_press k m t) = turretcolor t /\
  turretLength (Turret.on_key_press k m t) = turretLength t.
Proof.
  unfold Turret.on_key_press.
  destruct (k =? key.LEFT), (k =? key.RIGHT); cbn; auto.
Qed.

Lemma on_key_release_keeps_labels k m t :
  turretname (Turret.on_key_release k m t) = turretname t /\
  turret_position (Turret.on_key_release k m t) = turret_position t /\
  turretcolor (Turret.on_key_release k m t) = turretcolor t /\
  turretLength (Turret.on_key_release k m t) = turretLength t.
Proof.
  unfold Turret.on_key_release.
  destruct (k =? key.LEFT), (k =? key.RIGHT), (k =? key.SPACE); cbn; auto.
Qed.

Lemma tank_step_fixed (t : tank) e : tank_fixed t (tank_step t e).
Proof.
  unfold tank_fixed.
  destruct e as [k m|k m|]; cbn.
  - destruct (on_key_press_keeps_labels k m (turret_obj t)) as (?&?&?&?). auto 10.
  - destruct (on_key_release_keeps_labels k m (turret_obj t)) as (?&?&?&?). auto 10.
  - destruct (on_update_keeps_labels (turret_obj t)) as (?&?&?&?). auto 10.
Qed.

Lemma tank_fixed_refl (t : tank) : tank_fixed t t.
Proof. unfold tank_fixed. auto 10. Qed.

Lemma tank_fixed_trans (t1 t2 t3 : tank) :
  tank_fixed t1 t2 -> tank_fixed t2 t3 -> tank_fixed t1 t3.
Proof.
  unfold tank_fixed. intros (?&?&?&?&?&?&?&?) (?&?&?&?&?&?&?&?).
  repeat split; congruence.
Qed.

Lemma tank_step_turret (t : tank) e :
  turret_obj (tank_step t e) = turret_step (turret_obj t) e.
Proof. destruct e; reflexivity. Qed.

Lemma tank_run_turret es : forall (t : tank),
  turret_obj (tank_run es t) = turret_run es (turret_obj t).
Proof.
  unfold tank_run, turret_run.
  induction es as [|e es IH]; intros t; cbn; [reflexivity|].
  rewrite IH, tank_step_turret. reflexivity.
Qed.

Lemma tank_run_fixed es : forall (t : tank), tank_fixed t (tank_run es t).
Proof.
  unfold tank_run.
  induction es as [|e es IH]; intros t; cbn; [apply tank_fixed_refl|].
  exact (tank_fixed_trans _ _ _ (tank_step_fixed t e) (IH _)).
Qed.

End MoreTurretFacts.

(** X1.  One [update()] on any turret, whatever its angle and speed (also
    an angle outside the arc), leaves the angle at
    [max 0 (min 180 (angle + speed))], which is inside [[0, 180]]; the
    speed and the turret's name, position, colour and length are kept. *)
Theorem update_is_a_clamped_step :
  forall (t : turret),
    turretAngleDeg (Turret.on_update t)
      = Z.max 0 (Z.min 180 (turretAngleDeg t + turretSpeed t)) /\
    0 <= turretAngleDeg (Turret.on_update t) <= 180 /\
    turretSpeed (Turret.on_update t) = turretSpeed t /\
    turretname (Turret.on_update t) = turretname t /\
    turret_position (Turret.on_update t) = turret_position t /\
    turretcolor (Turret.on_update t) = turretcolor t /\
    turretLength (Turret.on_update t) = turretLength t.
Proof.
  intros t.
  split; [apply on_update_angle|].
  split; [apply on_update_in_range|].
  split; [apply on_update_speed|].
  apply on_update_keeps_labels.
Qed.

(** X2.  Keys the turret does not know are ignored: a press of a key other
    than LEFT and RIGHT returns the turret as it was, and so does a release
    of a key other than LEFT, RIGHT and SPACE. *)
Theorem unknown_keys_are_ignored :
  forall (t : turret) (k m : Z),
    k <> key.LEFT -> k <> key.RIGHT ->
    Turret.on_key_press k m t = t /\
    (k <> key.SPACE -> Turret.on_key_release k m t = t).
Proof.
  intros t k m Hl Hr.
  apply Z.eqb_neq in Hl, Hr.
  unfold Turret.on_key_press, Turret.on_key_release. rewrite Hl, Hr.
  split; [reflexivity|]. intros Hs. apply Z.eqb_neq in Hs. rewrite Hs. reflexivity.
Qed.

Lemma unknown_keys_are_ignored_witness :
  key.ESCAPE <> key.LEFT /\ key.ESCAPE <> key.RIGHT /\
  Turret.on_key_press key.ESCAPE 0
    (Turret.on_key_press key.LEFT 0 (Turret.__init__ "Player 1" (mkVec2d 100 200) RED))
  = Turret.on_key_press key.LEFT 0 (Turret.__init__ "Player 1" (mkVec2d 100 200) RED).
Proof.
  assert (Hl : key.ESCAPE <> key.LEFT) by discriminate.
  assert (Hr : key.ESCAPE <> key.RIGHT) by discriminate.
  split; [exact Hl|]. split; [exact Hr|].
  exact (proj1 (unknown_keys_are_ignored _ key.ESCAPE 0 Hl Hr)).
Defined.

(** X3.  Aiming is reversible away from the limits.  On a reachable turret,
    if [j] steps up stay within the arc, then LEFT, [j] updates, release,
    RIGHT, [j] updates bring the angle back to where it was; likewise with
    RIGHT first when [j] steps down stay within the arc. *)
Theorem aim_round_trip :
  forall (n : string) (p : Vec2d) (c : color) (es : list event) (j : nat) (m : Z),
    let t := turret_run es (Turret.__init__ n p c) in
    (turretAngleDeg t + Z.of_nat j * TURRET_SPEED_STEP <= TURRET_ANGLE_MAX ->
     turretAngleDeg
       (updates j (Turret.on_key_press key.RIGHT m
          (Turret.on_key_release key.LEFT m
             (updates j (Turret.on_key_press key.LEFT m t)))))
     = turretAngleDeg t) /\
    (TURRET_ANGLE_MIN <= turretAngleDeg t - Z.of_nat j * TURRET_SPEED_STEP ->
     turretAngleDeg
       (updates j (Turret.on_key_press key.LEFT m
          (Turret.on_key_release key.RIGHT m
             (updates j (Turret.on_key_press key.RIGHT m t)))))
     = turretAngleDeg t).
Proof.
  intros n p c es j m t.
  assert (Ht : angle_in_range t)
    by apply (turret_run_in_range _ _ (init_in_range n p c)).
  assert (Hl : angle_in_range (Turret.on_key_press key.LEFT m t))
    by (unfold angle_in_range; rewrite on_key_press_angle; exact Ht).
  assert (Hr : angle_in_range (Turret.on_key_press key.RIGHT m t))
    by (unfold angle_in_range; rewrite on_key_press_angle; exact Ht).
  unfold angle_in_range, TURRET_ANGLE_MIN, TURRET_ANGLE_MAX, TURRET_SPEED_STEP in *.
  split; intros Hj.
  - assert (Hback : angle_in_range
               (Turret.on_key_press key.RIGHT m
                  (Turret.on_key_release key.LEFT m
                     (updates j (Turret.on_key_press key.LEFT m t))))).
    { unfold angle_in_range.
      rewrite on_key_press_angle, on_key_release_angle, (updates_angle _ _ Hl).
      rewrite press_left_speed, on_key_press_angle.
      unfold TURRET_ANGLE_MIN, TURRET_ANGLE_MAX, TURRET_SPEED_STEP. lia. }
    rewrite (updates_angle _ _ Hback), press_right_speed.
    rewrite on_key_press_angle, on_key_release_angle, (updates_angle _ _ Hl).
    rewrite press_left_speed, on_key_press_angle.
    unfold TURRET_ANGLE_MIN, TURRET_ANGLE_MAX, TURRET_SPEED_STEP. lia.
  - assert (Hback : angle_in_range
               (Turret.on_key_press key.LEFT m
                  (Turret.on_key_release key.RIGHT m
                     (updates j (Turret.on_key_press key.RIGHT m t))))).
    { unfold angle_in_range.
      rewrite on_key_press_angle, on_key_release_angle, (updates_angle _ _ Hr).
      rewrite press_right_speed, on_key_press_angle.
      unfold TURRET_ANGLE_MIN, TURRET_ANGLE_MAX, TURRET_SPEED_STEP. lia. }
    rewrite (updates_angle _ _ Hback), press_left_speed.
    rewrite on_key_press_angle, on_key_release_angle, (updates_angle _ _ Hr).
    rewrite press_right_speed, on_key_press_angle.
    unfold TURRET_ANGLE_MIN, TURRET_ANGLE_MAX, TURRET_SPEED_STEP. lia.
Qed.

Lemma aim_round_trip_witness :
  45 + Z.of_nat 30 * TURRET_SPEED_STEP <= TURRET_ANGLE_MAX /\
  turretAngleDeg
    (updates 30 (Turret.on_key_press key.RIGHT 0
       (Turret.on_key_release key.LEFT 0
          (updates 30 (Turret.on_key_press key.LEFT 0
             (Turret.__init__ "Player 1" (mkVec2d 100 200) RED))))))
  = 45.
Proof.
  assert (H : 45 + Z.of_nat 30 * TURRET_SPEED_STEP <= TURRET_ANGLE_MAX)
    by (unfold TURRET_SPEED_STEP, TURRET_ANGLE_MAX; lia).
  split; [exact H|].
  exact (proj1 (aim_round_trip "Player 1" (mkVec2d 100 200) RED [] 30 0) H).
Defined.

(** X4.  Holding a direction long enough reaches the limit and stays there.
    On a reachable turret, LEFT and [j] updates with
    [180 - angle <= j * STEP] give exactly 180, RIGHT and [j] updates with
    [angle <= j * STEP] give exactly 0; 90 updates are always enough. *)
Theorem holding_reaches_limit :
  forall (n : string) (p : Vec2d) (c : color) (es : list event) (j : nat) (m : Z),
    let t := turret_run es (Turret.__init__ n p c) in
    (TURRET_ANGLE_MAX - turretAngleDeg t <= Z.of_nat j * TURRET_SPEED_STEP ->
     turretAngleDeg (updates j (Turret.on_key_press key.LEFT m t)) = TURRET_ANGLE_MAX) /\
    (turretAngleDeg t - TURRET_ANGLE_MIN <= Z.of_nat j * TURRET_SPEED_STEP ->
     turretAngleDeg (updates j (Turret.on_key_press key.RIGHT m t)) = TURRET_ANGLE_MIN) /\
    ((90 <= j)%nat ->
     turretAngleDeg (updates j (Turret.on_key_press key.LEFT m t)) = 180 /\
     turretAngleDeg (updates j (Turret.on_key_press key.RIGHT m t)) = 0).
Proof.
  intros n p c es j m t.
  assert (Ht : angle_in_range t)
    by apply (turret_run_in_range _ _ (init_in_range n p c)).
  destruct (aim_updates_in_range t j m Ht) as [Hl Hr].
  rewrite Hl, Hr.
  unfold angle_in_range, TURRET_ANGLE_MIN, TURRET_ANGLE_MAX, TURRET_SPEED_STEP in *.
  repeat split; intros; lia.
Qed.

Lemma holding_reaches_limit_witness :
  (90 <= 95)%nat /\
  turretAngleDeg
    (updates 95 (Turret.on_key_press key.RIGHT 0
       (turret_run [KeyPress key.LEFT 0; Update; Update; Update]
          (Turret.__init__ "Player 1" (mkVec2d 100 200) RED)))) = 0.
Proof.
  assert (H : (90 <= 95)%nat) by lia.
  split; [exact H|].
  exact (proj2 (proj2 (proj2 (holding_reaches_limit "Player 1" (mkVec2d 100 200) RED
                  [KeyPress key.LEFT 0; Update; Update; Update] 95 0)) H)).
Defined.

(** X5.  A tank only delegates.  After any sequence of events on a freshly
    constructed tank, its name, size, position and colour are those it was
    constructed with, its turret is the turret those same events produce
    from a fresh turret, and that turret still carries the tank's name,
    position and colour and the fixed length. *)
Theorem tank_only_delegates :
  forall (n : string) (p : Vec2d) (c : color) (es : list event),
    let t := tank_run es (Tank.__init__ n p c) in
    name t = n /\ size t = TANK_SIZE /\ position t = p /\ tank_color t = c /\
    turret_obj t = turret_run es (Turret.__init__ n p c) /\
    turretname (turret_obj t) = n /\
    turret_position (turret_obj t) = p /\
    turretcolor (turret_obj t) = c /\
    turretLength (turret_obj t) = TANK_TURRET_LENGTH.
Proof.
  intros n p c es t.
  destruct (tank_run_fixed es (Tank.__init__ n p c))
    as (H1 & H2 & H3 & H4 & H5 & H6 & H7 & H8).
  pose proof (tank_run_turret es (Tank.__init__ n p c)) as Ho.
  repeat split; assumption.
Qed.

(** ** The game window: failures and set-up *)

Section GameExtras.
Context {B : Type} {window : WindowConfig} {physics : PhysicsConfig}.
Context {projectile : Projectile B} {stepper : PhysicsStep B}.
Context {game : GameConfig}.
Implicit Types (w : world B) (l : list nat).

Lemma seq_Return {A C} (m : M B A) (f : A -> M B C) w a w' :
  m w = (Return a, w') -> (m ≫= f) w = f a w'.
Proof. unfold mbind, M_bind. intros ->. reflexivity. Qed.

Lemma seq_Raise {A C} (m : M B A) (f : A -> M B C) w e w' :
  m w = (Raise e, w') -> (m ≫= f) w = (Raise e, w').
Proof. unfold mbind, M_bind. intros ->. reflexivity. Qed.

Lemma for_app_Return {A} (f : A -> M B unit) (xs : list A) :
  forall (ys : list A) w w1,
    for_ xs f w = (Return tt, w1) ->
    for_ (xs ++ ys) f w = for_ ys f w1.
Proof.
  induction xs as [|x xs IH]; intros ys w w1 E.
  - cbn in E. injection E as <-. reflexivity.
  - change (for_ ((x :: xs) ++ ys) f w)
      with ((f x ≫= fun _ => for_ (xs ++ ys) f) w).
    change (for_ (x :: xs) f w) with ((f x ≫= fun _ => for_ xs f) w) in E.
    unfold mbind, M_bind in *.
    destruct (f x w) as [[[]|e] w0]; [|discriminate E].
    apply IH, E.
Qed.

(** [create_tanks] raises whatever the number of tanks, and touches
    nothing but the tank list, the cycle and the colour iterator. *)
Lemma create_tanks_always_raises n w :
  exists e w',
    BlackEarthGame.create_tanks n w = (Raise e, w') /\
    (e = TypeError \/ e = StopIteration) /\
    (n <= 0 -> e = StopIteration) /\
    (1 <= n -> COLORS w' = snd (itertools.next (COLORS w))) /\
    tanks w' = tanks w /\ tanksList w' = Some [] /\
    activeTank w' = activeTank w /\ sprites w' = sprites w /\
    ground w' = ground w /\ bullets_list w' = bullets_list w /\
    physics_engine w' = physics_engine w /\
    background_color w' = background_color w.
Proof.
  destruct (Z_le_gt_dec n 0) as [Hn|Hn].
  - unfold BlackEarthGame.create_tanks. rewrite seqZ_nil by lia.
    eexists _, _. split; [reflexivity|].
    split; [auto|]. split; [auto|]. split; [lia|]. cbn. auto 12.
  - unfold BlackEarthGame.create_tanks.
    rewrite seqZ_cons by lia. cbn [for_]. run_M.
    destruct (itertools.next (COLORS w)) as [[c|] cs]; world_simpl.
    + rewrite new_Tank_with_parent. eexists _, _.
      split; [reflexivity|]. split; [auto|]. split; [lia|]. cbn. auto 12.
    + eexists _, _.
      split; [reflexivity|]. split; [auto|]. split; [lia|]. cbn. auto 12.
Qed.

(** X6.  The quit key ends the run.  A release of ESCAPE raises
    [SystemExit] and leaves the world exactly as it was (the key is not
    passed to the active tank and never advances the turn); in a sequence
    of events, nothing after it is processed. *)
Theorem quit_key_stops_everything :
  forall (es1 es2 : list game_event) (m : Z) (w w1 : world B),
    game_run es1 w = (Return tt, w1) ->
    BlackEarthGame.on_key_release key.ESCAPE m w1 = (Raise SystemExit, w1) /\
    game_run (es1 ++ GKeyRelease key.ESCAPE m :: es2) w = (Raise SystemExit, w1).
Proof.
  intros es1 es2 m w w1 E. split; [reflexivity|].
  unfold game_run in *. rewrite (for_app_Return _ _ _ _ _ E). reflexivity.
Qed.

(** X7.  Before there is an active tank, key presses, key releases other
    than ESCAPE, and frame updates raise [AttributeError] and change
    nothing. *)
Theorem events_without_active_tank_raise :
  forall (w : world B) (k m : Z) (dt : Q),
    activeTank w = None ->
    BlackEarthGame.on_key_press k m w = (Raise AttributeError, w) /\
    (k <> key.ESCAPE ->
     BlackEarthGame.on_key_release k m w = (Raise AttributeError, w)) /\
    BlackEarthGame.on_update dt w = (Raise AttributeError, w).
Proof.
  intros w k m dt Ha.
  unfold BlackEarthGame.on_key_press, BlackEarthGame.on_key_release,
    BlackEarthGame.on_update. run_M. rewrite Ha.
  split; [reflexivity|]. split; [|reflexivity].
  intros Hk. apply Z.eqb_neq in Hk. rewrite Hk. cbn. rewrite Ha. reflexivity.
Qed.

(** X8.  The constructor leaves [physics_engine] without an engine and
    [bullets_list] without a list.  A frame update in that state raises
    [AttributeError] at the physics step, after the active tank has
    already been updated: the exception does not undo the turret's move. *)
Theorem update_without_engine_still_moves_tank :
  forall (w : world B) (a : nat) (dt : Q) (width height : Z) (title : string),
    activeTank w = Some a ->
    exists w0,
      BlackEarthGame.__init__ width height title w = (Return tt, w0) /\
      physics_engine w0 = None /\ bullets_list w0 = None /\
      BlackEarthGame.on_update dt w0
        = (Raise AttributeError,
           set_tanks (alter Tank.on_update a (tanks w0)) w0) /\
      tanks w0 = tanks w.
Proof.
  intros w a dt width height title Ha.
  eexists. split; [reflexivity|]. split; [reflexivity|]. split; [reflexivity|].
  split; [|reflexivity].
  unfold BlackEarthGame.on_update, BlackEarthGame.call_tank,
    BlackEarthGame.physics_engine_step. run_M. rewrite Ha. reflexivity.
Qed.

(** X9.  [setup] never returns: for every number of tanks it raises out of
    [create_tanks] ([StopIteration] when the number is 0 or negative,
    otherwise [TypeError], or [StopIteration] from an empty colour cycle).
    Nothing after [create_tanks] runs: ground, render list, physics engine,
    sprites and background are as before, no tank exists that did not
    before, the tank list is empty and the active tank is as it was.  For
    a positive number of tanks one colour has been taken from the shared
    colour cycle. *)
Theorem setup_never_returns :
  forall (num_tanks : Z) (w : world B),
    exists e w',
      BlackEarthGame.setup num_tanks w = (Raise e, w') /\
      (e = TypeError \/ e = StopIteration) /\
      (num_tanks <= 0 -> e = StopIteration) /\
      (1 <= num_tanks -> COLORS w' = snd (itertools.next (COLORS w))) /\
      tanks w' = tanks w /\ tanksList w' = Some [] /\
      activeTank w' = activeTank w /\ sprites w' = sprites w /\
      ground w' = ground w /\ bullets_list w' = bullets_list w /\
      physics_engine w' = physics_engine w /\
      background_color w' = background_color w.
Proof.
  intros n w.
  destruct (create_tanks_always_raises n w) as (e & w' & E & H).
  exists e, w'. split; [|exact H].
  unfold BlackEarthGame.setup. apply seq_Raise, E.
Qed.

(** X10.  [main] never reaches the event loop: whatever [arcade.run()]
    would do, [main] raises out of [setup], with no active tank set, no
    physics engine and no render list. *)
Theorem main_never_runs_the_loop :
  forall (run : M B unit) (w : world B),
    exists e w',
      main run w = (Raise e, w') /\
      (e = TypeError \/ e = StopIteration) /\
      activeTank w' = activeTank w /\
      physics_engine w' = None /\ bullets_list w' = None /\
      ground w' = ground w /\ tanks w' = tanks w.
Proof.
  intros run w.
  destruct (create_tanks_always_raises NUM_TANKS
              (set_physics_engine None (set_bullets_list None w)))
    as (e & w' & E & He & _ & _ & Ht & _ & Ha & _ & Hg & Hb & Hp & _).
  exists e, w'. repeat split; auto.
  unfold main.
  rewrite (seq_Return _ _ w tt (set_physics_engine None (set_bullets_list None w)))
    by reflexivity.
  apply seq_Raise. unfold BlackEarthGame.setup. apply seq_Raise, E.
Qed.

End GameExtras.

(** ** Environment, projectiles and collisions *)

Section ArenaExtras.
Context {B : Type} {window : WindowConfig} {physics : PhysicsConfig}.
Context {projectile : Projectile B} {stepper : PhysicsStep B}.
Implicit Types (w : world B) (l : list nat).

Lemma setup_environment_spec w :
  setup_environment w =
  (Return tt,
   set_physics_engine
     (Some (mkEngine (0%Q, GRAVITY) DAMPING
              (<[fresh (dom (sprites w)) :=
                   mkBody STATIC "ground" (body_mass default_body)
                     (body_friction default_body) (body_damping default_body) []]> ∅)
              [("bullet", "ground", bullet_ground_handler_fn)]))
     (set_bullets_list (Some [])
        (set_ground (Some (fresh (dom (sprites w))))
           (set_sprites
              (<[fresh (dom (sprites w)) :=
                   SpriteSolidColor WIDTH (HEIGHT `div` 3) DARK_SPRING_GREEN
                     (inject_Z WIDTH / inject_Z 2) (inject_Z HEIGHT / inject_Z 6)]>
                 (sprites w))
              (set_background_color (Some CORNFLOWER_BLUE) w))))).
Proof. reflexivity. Qed.

Lemma fresh_sprite_unused w : sprites w !! fresh (dom (sprites w)) = None.
Proof. apply not_elem_of_dom, is_fresh. Qed.

(** X11.  The part of [setup] after [create_tanks] works on any world and
    can be repeated.  It returns normally; the ground is a new sprite of
    the window's width and a third of its height (rounded down), and the
    sprites that existed are kept; the render list is empty; the engine is
    a new one with gravity [(0, GRAVITY)] and damping [DAMPING] in which
    the ground, as a static body of type "ground", is the only registered
    sprite and the handler for ("bullet", "ground") is installed; tanks and
    turn order are not touched. *)
Theorem setup_environment_establishes :
  forall (w : world B),
    exists w' g e bg cx cy,
      setup_environment w = (Return tt, w') /\
      ground w' = Some g /\
      sprites w !! g = None /\
      sprites w' !! g
        = Some (SpriteSolidColor WIDTH (HEIGHT `div` 3) DARK_SPRING_GREEN cx cy) /\
      (forall s, s <> g -> sprites w' !! s = sprites w !! s) /\
      bullets_list w' = Some [] /\
      physics_engine w' = Some e /\
      gravity e = (0%Q, GRAVITY) /\ damping e = DAMPING /\
      registry e !! g = Some bg /\
      body_type bg = STATIC /\ collision_type bg = "ground" /\
      (forall s, s <> g -> registry e !! s = None) /\
      PymunkPhysicsEngine.find_handler "bullet" "ground" (handlers e)
        = Some bullet_ground_handler_fn /\
      tanks w' = tanks w /\ tanksList w' = tanksList w /\
      tanksCycle w' = tanksCycle w /\ activeTank w' = activeTank w.
Proof.
  intros w. eexists _, (fresh (dom (sprites w))), _, _, _, _.
  split; [apply setup_environment_spec|]. world_simpl.
  split; [reflexivity|]. split; [apply fresh_sprite_unused|].
  split; [apply lookup_insert_eq|].
  split; [intros s Hs; apply lookup_insert_ne; congruence|].
  split; [reflexivity|]. split; [reflexivity|].
  split; [reflexivity|]. split; [reflexivity|].
  split; [world_simpl; apply lookup_insert_eq|].
  split; [reflexivity|]. split; [reflexivity|].
  split; [intros s Hs; world_simpl; rewrite lookup_insert_ne by congruence;
          apply lookup_empty|].
  split; [reflexivity|]. auto.
Qed.

(** X12.  [setup_physics_collisions] needs the engine and the ground: if
    either is missing it raises [AttributeError] and registers nothing. *)
Theorem collisions_setup_needs_engine_and_ground :
  forall (w : world B),
    physics_engine w = None \/ ground w = None ->
    BlackEarthGame.setup_physics_collisions w = (Raise AttributeError, w).
Proof.
  intros w H.
  unfold BlackEarthGame.setup_physics_collisions. run_M.
  destruct (physics_engine w) as [e|] eqn:He; [|reflexivity].
  destruct H as [H|H]; [discriminate H|]. rewrite H. reflexivity.
Qed.

(** X13.  When [add_bullet] fails.  Without a render list it raises
    [AttributeError] and changes nothing.  For a projectile that is already
    in the render list the append raises [ValueError] and nothing changes,
    engine or no engine.  For a projectile that is not in the list, with
    no engine, it raises [AttributeError] after the append: the projectile
    is in the render list although nothing simulates it. *)
Theorem add_bullet_without_setup :
  forall (w : world B) (bullet : nat) (power : Q),
    (bullets_list w = None ->
     BlackEarthGame.add_bullet bullet power w = (Raise AttributeError, w)) /\
    (forall l, bullets_list w = Some l -> bullet ∈ l ->
     BlackEarthGame.add_bullet bullet power w = (Raise ValueError, w)) /\
    (forall l, bullets_list w = Some l -> bullet ∉ l -> physics_engine w = None ->
     BlackEarthGame.add_bullet bullet power w
     = (Raise AttributeError, set_bullets_list (Some (l ++ [bullet])) w)).
Proof.
  intros w bullet power.
  unfold BlackEarthGame.add_bullet, BlackEarthGame.bullets_list_append. run_M.
  split; [|split].
  - intros ->. reflexivity.
  - intros l -> Hin. rewrite (decide_True _ _ Hin). reflexivity.
  - intros l -> Hnotin He. rewrite (decide_False _ _ Hnotin). world_simpl.
    rewrite He. reflexivity.
Qed.

(** X14.  A ground hit removes the projectile that hit and nothing else.
    When the handler for ("bullet", "ground") is installed and a
    registered projectile collides with a "ground" body, the render list
    afterwards is the old one without that projectile, in the same order;
    the projectile is no longer registered with the engine and has been
    detonated; every other sprite keeps its place in the render list, its
    registration and its state; the tanks and the turn order are as
    before. *)
Theorem ground_hit_removes_only_that_projectile :
  forall (w : world B) (bullet g : nat) (b : B) (l : list nat)
         (e : engine) (bb bg : body),
    bullets_list w = Some l ->
    physics_engine w = Some e ->
    sprites w !! bullet = Some (Bullet b) ->
    registry e !! bullet = Some bb -> collision_type bb = "bullet" ->
    registry e !! g = Some bg -> collision_type bg = "ground" ->
    PymunkPhysicsEngine.find_handler "bullet" "ground" (handlers e)
      = Some bullet_ground_handler_fn ->
    exists w2 e2,
      BlackEarthGame.collision bullet g w = (Return tt, w2) /\
      bullets_list w2 = Some (filter (.≠ bullet) l) /\
      physics_engine w2 = Some e2 /\
      registry e2 !! bullet = None /\
      handlers e2 = handlers e /\
      sprites w2 !! bullet = Some (Bullet (detonate b)) /\
      (forall s, s <> bullet ->
         (s ∈ filter (.≠ bullet) l <-> s ∈ l) /\
         registry e2 !! s = registry e !! s /\
         sprites w2 !! s = sprites w !! s) /\
      tanks w2 = tanks w /\ activeTank w2 = activeTank w /\
      tanksCycle w2 = tanksCycle w.
Proof.
  intros w bullet g b l e bb bg HL He Hb Hbb Tb Hbg Tg Hh.
  eexists _, _.
  split; [exact (collision_spec w bullet g b l e bb bg HL He Hb Hbb Tb Hbg Tg Hh)|].
  world_simpl.
  split; [reflexivity|]. split; [reflexivity|].
  split; [apply lookup_delete_eq|]. split; [reflexivity|].
  split; [apply lookup_insert_eq|].
  split; [|auto].
  intros s Hs. split; [|split].
  - rewrite list_elem_of_filter. split; [intros [_ H]; exact H|auto].
  - apply lookup_delete_ne. congruence.
  - apply lookup_insert_ne. congruence.
Qed.

(** X15.  Only a projectile against the ground detonates.  With the
    handlers as [setup_physics_collisions] installs them, a collision of
    two sprites whose collision types are equal (two projectiles, say), or
    of two sprites that are both unregistered, changes nothing. *)
Theorem same_type_collision_changes_nothing :
  forall (w : world B) (a b : nat) (e : engine),
    physics_engine w = Some e ->
    handlers e = [("bullet", "ground", bullet_ground_handler_fn)] ->
    collision_type <$> registry e !! a = collision_type <$> registry e !! b ->
    BlackEarthGame.collision a b w = (Return tt, w).
Proof.
  intros w a b e He Hh Ht.
  unfold BlackEarthGame.collision. run_M. rewrite He. world_simpl.
  destruct (registry e !! a) as [ba|], (registry e !! b) as [bb|];
    try reflexivity; try discriminate Ht.
  cbn in Ht. injection Ht as Ht. rewrite Hh, Ht.
  unfold PymunkPhysicsEngine.find_handler.
  destruct (decide ("bullet" = collision_type bb ∧ "ground" = collision_type bb))
    as [[H1 H2]|_]; [|reflexivity].
  rewrite <- H1 in H2. discriminate H2.
Qed.

(** X16.  Fire and hit, end to end.  After the environment is set up on
    any world that holds a projectile object, firing it and then
    delivering its collision with the ground both return; the render list
    is empty again, the projectile has been detonated and is no longer
    registered, the ground still is, and no tank has changed. *)
Theorem fire_and_hit_after_setup :
  forall (w : world B) (bullet : nat) (b : B) (power : Q),
    sprites w !! bullet = Some (Bullet b) ->
    exists w0 g w1 w2 e2,
      setup_environment w = (Return tt, w0) /\
      ground w0 = Some g /\
      BlackEarthGame.add_bullet bullet power w0 = (Return tt, w1) /\
      bullets_list w1 = Some [bullet] /\
      BlackEarthGame.collision bullet g w1 = (Return tt, w2) /\
      bullets_list w2 = Some [] /\
      sprites w2 !! bullet = Some (Bullet (detonate b)) /\
      physics_engine w2 = Some e2 /\
      registry e2 !! bullet = None /\
      is_Some (registry e2 !! g) /\
      tanks w2 = tanks w.
Proof.
  intros w bullet b power Hb.
  set (g := fresh (dom (sprites w))).
  assert (Hg : g <> bullet).
  { intros Heq. pose proof (fresh_sprite_unused w) as Hf. fold g in Hf.
    rewrite Heq in Hf. congruence. }
  set (gb := mkBody STATIC "ground" (body_mass default_body)
               (body_friction default_body) (body_damping default_body) []).
  set (e0 := mkEngine (0%Q, GRAVITY) DAMPING (<[g := gb]> ∅)
               [("bullet", "ground", bullet_ground_handler_fn)]).
  set (w0 := set_physics_engine (Some e0)
     (set_bullets_list (Some [])
        (set_ground (Some g)
           (set_sprites
              (<[g := SpriteSolidColor WIDTH (HEIGHT `div` 3) DARK_SPRING_GREEN
                        (inject_Z WIDTH / inject_Z 2) (inject_Z HEIGHT / inject_Z 6)]>
                 (sprites w))
              (set_background_color (Some CORNFLOWER_BLUE) w))))).
  assert (E0 : setup_environment w = (Return tt, w0))
    by apply setup_environment_spec.
  assert (Hb0 : sprites w0 !! bullet = Some (Bullet b)).
  { unfold w0. world_simpl. rewrite lookup_insert_ne by exact Hg. exact Hb. }
  set (b1 := mkBody DYNAMIC "bullet" (mass b) (friction b) (Some DAMPING)
               [(power, 0%Q)]).
  set (e1 := mkEngine (gravity e0) (damping e0) (<[bullet := b1]> (registry e0))
               (handlers e0)).
  set (w1 := set_physics_engine (Some e1)
               (set_bullets_list (Some ([] ++ [bullet])) w0)).
  assert (E1 : BlackEarthGame.add_bullet bullet power w0 = (Return tt, w1)).
  { apply (add_bullet_spec w0 bullet power b [] e0 eq_refl);
      [apply not_elem_of_nil | reflexivity | | exact Hb0].
    unfold e0. cbn [registry].
    rewrite lookup_insert_ne by exact Hg. apply lookup_empty. }
  assert (Hbreg : registry e1 !! bullet = Some b1) by apply lookup_insert_eq.
  assert (Hgreg : registry e1 !! g = Some gb).
  { unfold e1, e0. cbn [registry].
    rewrite lookup_insert_ne by congruence. apply lookup_insert_eq. }
  pose proof (collision_spec w1 bullet g b ([] ++ [bullet]) e1 b1 gb
                eq_refl eq_refl Hb0 Hbreg eq_refl Hgreg eq_refl eq_refl) as E2.
  eexists w0, g, w1, _, _.
  split; [exact E0|]. split; [reflexivity|]. split; [exact E1|].
  split; [reflexivity|]. split; [exact E2|]. world_simpl.
  split; [rewrite filter_cons_False, filter_nil by (intros H; apply H; reflexivity);
          reflexivity|].
  split; [apply lookup_insert_eq|]. split; [reflexivity|].
  split; [world_simpl; apply lookup_delete_eq|].
  split; [|reflexivity].
  world_simpl. rewrite lookup_delete_ne by congruence.
  exists gb. exact Hgreg.
Qed.

End ArenaExtras.

(** ** Whole runs of the game *)

Section RunExtras.
Context {B : Type} {stepper : PhysicsStep B}.
Implicit Types (w : world B) (l : list nat) (ev : game_event).

Lemma key_press_spec k m w a :
  activeTank w = Some a ->
  BlackEarthGame.on_key_press k m w
  = (Return tt, set_tanks (alter (Tank.on_key_press k m) a (tanks w)) w).
Proof.
  intros Ha. unfold BlackEarthGame.on_key_press, BlackEarthGame.call_tank.
  run_M. rewrite Ha. reflexivity.
Qed.

Lemma plain_release_spec k m w a :
  activeTank w = Some a -> k <> key.ESCAPE -> k <> key.SPACE ->
  BlackEarthGame.on_key_release k m w
  = (Return tt, set_tanks (alter (Tank.on_key_release k m) a (tanks w)) w).
Proof.
  intros Ha He Hs. apply Z.eqb_neq in He, Hs.
  unfold BlackEarthGame.on_key_release, BlackEarthGame.call_tank.
  run_M. rewrite He; cbn. rewrite Ha; cbn. rewrite Hs. reflexivity.
Qed.

Lemma fire_release_spec l k m w a :
  turn_order l k w -> activeTank w = Some a ->
  exists a',
    l !! (S k `mod` length l)%nat = Some a' /\
    BlackEarthGame.on_key_release key.SPACE m w
    = (Return tt,
       set_activeTank (Some a')
         (set_tanksCycle (Some (itertools.advance (S (S k)) (itertools.new l)))
            (set_tanks (alter (Tank.on_key_release key.SPACE m) a (tanks w)) w))).
Proof.
  intros (Hl & HL & HC & HA) Ha.
  destruct (lookup_mod_Some l (S k) Hl) as [a' Ha'].
  exists a'. split; [exact Ha'|].
  unfold BlackEarthGame.on_key_release, BlackEarthGame.call_tank. run_M.
  rewrite Ha; cbn. rewrite HC, (next_advance l (S k) Hl), Ha'. reflexivity.
Qed.

Lemma fire_count_cases ev :
  (fire_count ev = 0%nat /\ forall m, ev <> GKeyRelease key.SPACE m) \/
  (fire_count ev = 1%nat /\ exists m, ev = GKeyRelease key.SPACE m).
Proof.
  destruct ev as [k m|k m|dt]; cbn; try (left; split; [reflexivity|discriminate]).
  destruct (Z.eqb_spec k key.SPACE) as [->|Hk].
  - right. split; [reflexivity|]. exists m. reflexivity.
  - left. split; [reflexivity|]. intros m' H. injection H as H _. contradiction.
Qed.

(** One event that is not the quit key, in turn [k]. *)
Lemma game_step_spec l k e ev w a :
  turn_order l k w -> physics_engine w = Some e -> activeTank w = Some a ->
  is_quit ev = false ->
  exists w1 e1,
    game_step ev w = (Return tt, w1) /\
    turn_order l (k + fire_count ev) w1 /\
    physics_engine w1 = Some e1 /\
    tanks w1 = alter (fun t => tank_step t (event_of ev)) a (tanks w) /\
    (fire_count ev = 0%nat -> activeTank w1 = Some a).
Proof.
  intros Hw He Ha Hq.
  destruct ev as [k' m|k' m|dt]; cbn [game_step fire_count event_of].
  - exists (set_tanks (alter (Tank.on_key_press k' m) a (tanks w)) w), e.
    split; [apply key_press_spec, Ha|]. rewrite Nat.add_0_r.
    repeat split; try apply Hw; auto.
  - cbn in Hq. apply Z.eqb_neq in Hq.
    destruct (Z.eqb_spec k' key.SPACE) as [->|Hs].
    + destruct (fire_release_spec l k m w a Hw Ha) as (a' & Ha' & E).
      eexists _, e. split; [exact E|]. rewrite Nat.add_1_r.
      destruct Hw as (Hl & HL & HC & HA).
      repeat split; auto. discriminate.
    + exists (set_tanks (alter (Tank.on_key_release k' m) a (tanks w)) w), e.
      split; [apply plain_release_spec; assumption|]. rewrite Nat.add_0_r.
      repeat split; try apply Hw; auto.
  - destruct (on_update_frame dt w a e Ha He)
      as (w1 & e1 & E & Ha1 & He1 & HC1 & HL1 & HT1).
    exists w1, e1. split; [exact E|]. rewrite Nat.add_0_r.
    destruct Hw as (Hl & HL & HC & HA).
    repeat split; auto; congruence.
Qed.

(** A property of the turn number and the world that every event other
    than the quit key preserves holds after any run without the quit key. *)
Lemma game_run_invariant (I : nat -> world B -> Prop) :
  (forall k w ev, I k w -> is_quit ev = false ->
     exists w1, game_step ev w = (Return tt, w1) /\ I (k + fire_count ev)%nat w1) ->
  forall es k w,
    I k w -> Forall (fun ev => is_quit ev = false) es ->
    exists w', game_run es w = (Return tt, w') /\ I (k + fires es)%nat w'.
Proof.
  intros Hstep es. induction es as [|ev es IH]; intros k w Hi Hes.
  - exists w. split; [reflexivity|]. cbn. rewrite Nat.add_0_r. exact Hi.
  - apply Forall_cons in Hes as [Hq Hes].
    destruct (Hstep k w ev Hi Hq) as (w1 & E1 & Hi1).
    destruct (IH _ w1 Hi1 Hes) as (w' & E' & Hi').
    exists w'. split.
    + exact (eq_trans (seq_Return _ _ _ _ _ E1) E').
    + cbn [fires foldr]. fold (fires es). rewrite Nat.add_assoc. exact Hi'.
Qed.

Lemma tank_step_sound (t : tank) (e : event) :
  tank_fixed t (tank_step t e) /\
  (angle_in_range (turret_obj t) -> angle_in_range (turret_obj (tank_step t e))).
Proof.
  split; [apply tank_step_fixed|].
  rewrite tank_step_turret. apply turret_step_in_range.
Qed.

(** X17.  Any run of key presses, key releases other than ESCAPE, and
    frame updates, from a state with the turn order and an engine in
    place, returns normally.  Afterwards the turn order is intact and has
    advanced by the number of fire releases in the run (so the active tank
    is the one at that position of the unchanged tank list, modulo its
    length); no tank has appeared or disappeared; every tank has its name,
    size, position and colour, and its turret's name, position, colour and
    length, as before; and every turret angle that was within the arc
    still is. *)
Theorem run_keeps_the_game_sound :
  forall (l : list nat) (k : nat) (e : engine) (es : list game_event) (w : world B),
    turn_order l k w ->
    physics_engine w = Some e ->
    Forall (fun ev => is_quit ev = false) es ->
    exists w',
      game_run es w = (Return tt, w') /\
      turn_order l (k + fires es) w' /\
      is_Some (physics_engine w') /\
      (forall r, is_Some (tanks w' !! r) <-> is_Some (tanks w !! r)) /\
      (forall r t t',
         tanks w !! r = Some t -> tanks w' !! r = Some t' ->
         tank_fixed t t' /\
         (angle_in_range (turret_obj t) -> angle_in_range (turret_obj t'))).
Proof.
  intros l k e es w Hw He Hes.
  set (P := fun t t' : tank =>
              tank_fixed t t' /\
              (angle_in_range (turret_obj t) -> angle_in_range (turret_obj t'))).
  set (I := fun (k1 : nat) (w1 : world B) =>
              turn_order l k1 w1 /\ is_Some (physics_engine w1) /\
              forall r, option_Forall2 P (tanks w !! r) (tanks w1 !! r)).
  assert (Hstep : forall k1 w1 ev, I k1 w1 -> is_quit ev = false ->
            exists w2, game_step ev w1 = (Return tt, w2) /\
                       I (k1 + fire_count ev)%nat w2).
  { intros k1 w1 ev (Hw1 & [e1 He1] & HR) Hq.
    destruct (turn_order_active l k1 w1 Hw1) as [a Ha].
    destruct (game_step_spec l k1 e1 ev w1 a Hw1 He1 Ha Hq)
      as (w2 & e2 & E & Hw2 & He2 & Ht2 & _).
    exists w2. split; [exact E|]. split; [exact Hw2|]. split; [eauto|].
    intros r. rewrite Ht2.
    destruct (decide (r = a)) as [->|Hr].
    - rewrite lookup_alter_eq. specialize (HR a).
      destruct HR as [t t1 [Hf Hin]|]; constructor.
      destruct (tank_step_sound t1 (event_of ev)) as [Hf' Hin'].
      split; [exact (tank_fixed_trans _ _ _ Hf Hf')|auto].
    - rewrite lookup_alter_ne by congruence. apply HR. }
  assert (Hi : I k w).
  { split; [exact Hw|]. split; [eauto|].
    intros r. destruct (tanks w !! r) as [t|]; constructor.
    split; [apply tank_fixed_refl|auto]. }
  destruct (game_run_invariant I Hstep es k w Hi Hes) as (w' & E & Hw' & He' & HR).
  exists w'. split; [exact E|]. split; [exact Hw'|]. split; [exact He'|]. split.
  - intros r. specialize (HR r).
    destruct HR as [t1 t2 _|]; split; intros [t0 Ht0];
      try discriminate Ht0; eauto.
  - intros r t t' Ht Ht'. specialize (HR r). rewrite Ht, Ht' in HR.
    inversion HR; subst. assumption.
Qed.

(** X18.  Tanks that are not active are at rest.  If every tank other than
    the active one has turret speed 0 (as all tanks have when
    constructed), this still holds after any run without the quit key:
    a tank gives up the turn only through a fire release, which has
    cleared its speed before the turn moves on. *)
Theorem inactive_tanks_stay_at_rest :
  forall (l : list nat) (k : nat) (e : engine) (es : list game_event) (w : world B),
    turn_order l k w ->
    physics_engine w = Some e ->
    Forall (fun ev => is_quit ev = false) es ->
    (forall r t, activeTank w <> Some r -> tanks w !! r = Some t ->
                 turretSpeed (turret_obj t) = 0) ->
    exists w',
      game_run es w = (Return tt, w') /\
      (forall r t, activeTank w' <> Some r -> tanks w' !! r = Some t ->
                   turretSpeed (turret_obj t) = 0).
Proof.
  intros l k e es w Hw He Hes Hrest.
  set (I := fun (k1 : nat) (w1 : world B) =>
              turn_order l k1 w1 /\ is_Some (physics_engine w1) /\
              forall r t, activeTank w1 <> Some r -> tanks w1 !! r = Some t ->
                          turretSpeed (turret_obj t) = 0).
  assert (Hstep : forall k1 w1 ev, I k1 w1 -> is_quit ev = false ->
            exists w2, game_step ev w1 = (Return tt, w2) /\
                       I (k1 + fire_count ev)%nat w2).
  { intros k1 w1 ev (Hw1 & [e1 He1] & HR) Hq.
    destruct (turn_order_active l k1 w1 Hw1) as [a Ha].
    destruct (game_step_spec l k1 e1 ev w1 a Hw1 He1 Ha Hq)
      as (w2 & e2 & E & Hw2 & He2 & Ht2 & Hsame).
    exists w2. split; [exact E|]. split; [exact Hw2|]. split; [eauto|].
    intros r t Hr Ht. rewrite Ht2 in Ht.
    destruct (decide (r = a)) as [->|Hra].
    - rewrite lookup_alter_eq in Ht.
      destruct (tanks w1 !! a) as [t1|]; [|discriminate Ht].
      injection Ht as <-.
      destruct (fire_count_cases ev) as [[H0 _]|[_ [m ->]]].
      + exfalso. apply Hr. apply Hsame, H0.
      + reflexivity.
    - rewrite lookup_alter_ne in Ht by congruence.
      apply (HR r t); [congruence|exact Ht]. }
  assert (Hi : I k w) by (split; [exact Hw|]; split; [eauto|exact Hrest]).
  destruct (game_run_invariant I Hstep es k w Hi Hes) as (w' & E & _ & _ & HR).
  exists w'. split; [exact E|exact HR].
Qed.

(** X19.  A key press, or a release of a key other than SPACE and ESCAPE,
    returns normally and changes nothing in the world but the active
    tank, and of that tank nothing but its turret speed: no turret angle
    moves on a key event, and the turn, the sprites, the render list and
    the engine are as before. *)
Theorem key_events_only_set_the_active_speed :
  forall (w : world B) (a : nat) (k m : Z),
    activeTank w = Some a ->
    exists w1 w2,
      BlackEarthGame.on_key_press k m w = (Return tt, w1) /\
      (k <> key.SPACE -> k <> key.ESCAPE ->
       BlackEarthGame.on_key_release k m w = (Return tt, w2)) /\
      (forall w', w' = w1 \/ w' = w2 ->
         (forall r, r <> a -> tanks w' !! r = tanks w !! r) /\
         (forall t, tanks w !! a = Some t ->
            exists t', tanks w' !! a = Some t' /\
                       turretAngleDeg (turret_obj t') = turretAngleDeg (turret_obj t) /\
                       tank_fixed t t') /\
         activeTank w' = activeTank w /\ tanksCycle w' = tanksCycle w /\
         tanksList w' = tanksList w /\ sprites w' = sprites w /\
         bullets_list w' = bullets_list w /\ physics_engine w' = physics_engine w /\
         ground w' = ground w).
Proof.
  intros w a k m Ha.
  exists (set_tanks (alter (Tank.on_key_press k m) a (tanks w)) w),
         (set_tanks (alter (Tank.on_key_release k m) a (tanks w)) w).
  split; [apply key_press_spec, Ha|].
  split; [intros Hs He; apply plain_release_spec; assumption|].
  intros w' [-> | ->]; world_simpl.
  - split; [intros r Hr; apply lookup_alter_ne; congruence|].
    split; [|auto 10].
    intros t Ht. rewrite lookup_alter_eq, Ht. eexists. split; [reflexivity|].
    split; [apply on_key_press_angle|apply (tank_step_fixed t (KeyPress k m))].
  - split; [intros r Hr; apply lookup_alter_ne; congruence|].
    split; [|auto 10].
    intros t Ht. rewrite lookup_alter_eq, Ht. eexists. split; [reflexivity|].
    split; [apply on_key_release_angle|apply (tank_step_fixed t (KeyRelease k m))].
Qed.

(** X20.  A tank changes only during its own turns.  Over any run without
    the quit key that starts in turn [k], a tank that is not the one whose
    turn it is at any of the turns [k .. k + fires] of the run is exactly
    as it was: its aim is kept until its turn comes round again. *)
Theorem tanks_change_only_in_their_turn :
  forall (l : list nat) (k : nat) (e : engine) (es : list game_event) (w : world B),
    turn_order l k w ->
    physics_engine w = Some e ->
    Forall (fun ev => is_quit ev = false) es ->
    exists w',
      game_run es w = (Return tt, w') /\
      forall r,
        (forall j, (k <= j <= k + fires es)%nat ->
                   l !! (j `mod` length l)%nat <> Some r) ->
        tanks w' !! r = tanks w !! r.
Proof.
  intros l k e es w Hw He Hes.
  set (I := fun (k1 : nat) (w1 : world B) =>
              turn_order l k1 w1 /\ is_Some (physics_engine w1) /\ (k <= k1)%nat /\
              forall r,
                (forall j, (k <= j <= k1)%nat ->
                           l !! (j `mod` length l)%nat <> Some r) ->
                tanks w1 !! r = tanks w !! r).
  assert (Hstep : forall k1 w1 ev, I k1 w1 -> is_quit ev = false ->
            exists w2, game_step ev w1 = (Return tt, w2) /\
                       I (k1 + fire_count ev)%nat w2).
  { intros k1 w1 ev (Hw1 & [e1 He1] & Hk & HR) Hq.
    destruct (turn_order_active l k1 w1 Hw1) as [a Ha].
    destruct (game_step_spec l k1 e1 ev w1 a Hw1 He1 Ha Hq)
      as (w2 & e2 & E & Hw2 & He2 & Ht2 & _).
    exists w2. split; [exact E|]. split; [exact Hw2|]. split; [eauto|].
    split; [lia|].
    intros r Hr. rewrite Ht2.
    assert (Hra : a <> r).
    { intros ->. apply (Hr k1); [lia|].
      destruct Hw1 as (_ & _ & _ & HA). congruence. }
    rewrite lookup_alter_ne by exact Hra.
    apply HR. intros j Hj. apply Hr. lia. }
  assert (Hi : I k w).
  { split; [exact Hw|]. split; [eauto|]. split; [lia|]. reflexivity. }
  destruct (game_run_invariant I Hstep es k w Hi Hes) as (w' & E & _ & _ & _ & HR).
  exists w'. split; [exact E|exact HR].
Qed.

End RunExtras.

(** ** The further properties at concrete inputs *)

Lemma quit_key_stops_everything_witness :
  game_run (stepper := demo_step) [GKeyPress key.LEFT 0; GFrame (1 # 60)] demo_world
    = (Return tt,
       snd (game_run (stepper := demo_step)
              [GKeyPress key.LEFT 0; GFrame (1 # 60)] demo_world)) /\
  fst (game_run (stepper := demo_step)
         ([GKeyPress key.LEFT 0; GFrame (1 # 60)]
            ++ GKeyRelease key.ESCAPE 0 :: [GKeyRelease key.SPACE 0]) demo_world)
    = Raise SystemExit.
Proof.
  assert (H : game_run (stepper := demo_step)
                [GKeyPress key.LEFT 0; GFrame (1 # 60)] demo_world
              = (Return tt,
                 snd (game_run (stepper := demo_step)
                        [GKeyPress key.LEFT 0; GFrame (1 # 60)] demo_world)))
    by reflexivity.
  split; [exact H|].
  rewrite (proj2 (quit_key_stops_everything (stepper := demo_step)
                    _ [GKeyRelease key.SPACE 0] 0 _ _ H)).
  reflexivity.
Defined.

Lemma events_without_active_tank_raise_witness :
  activeTank (new_world TANK_COLORS : world shell) = None /\
  BlackEarthGame.on_key_press key.LEFT 0 (new_world TANK_COLORS : world shell)
    = (Raise AttributeError, new_world TANK_COLORS).
Proof.
  split; [reflexivity|].
  exact (proj1 (events_without_active_tank_raise (stepper := demo_step)
                  (new_world TANK_COLORS) key.LEFT 0 (1 # 60) eq_refl)).
Defined.

Lemma update_without_engine_still_moves_tank_witness :
  activeTank demo_world = Some 0%nat /\
  exists w0,
    BlackEarthGame.__init__ 800 600 "Black Earth" demo_world = (Return tt, w0) /\
    fst (BlackEarthGame.on_update (stepper := demo_step) (1 # 60) w0)
      = Raise AttributeError.
Proof.
  split; [reflexivity|].
  destruct (update_without_engine_still_moves_tank (stepper := demo_step)
              demo_world 0%nat (1 # 60) 800 600 "Black Earth" eq_refl)
    as (w0 & E0 & _ & _ & E & _).
  exists w0. split; [exact E0|]. rewrite E. reflexivity.
Defined.

Lemma collisions_setup_needs_engine_and_ground_witness :
  (physics_engine (new_world TANK_COLORS : world shell) = None \/
   ground (new_world TANK_COLORS : world shell) = None) /\
  BlackEarthGame.setup_physics_collisions (new_world TANK_COLORS : world shell)
    = (Raise AttributeError, new_world TANK_COLORS).
Proof.
  assert (H : physics_engine (new_world TANK_COLORS : world shell) = None \/
              ground (new_world TANK_COLORS : world shell) = None)
    by (left; reflexivity).
  split; [exact H|].
  exact (collisions_setup_needs_engine_and_ground (new_world TANK_COLORS) H).
Defined.

Lemma add_bullet_without_setup_witness :
  bullets_list (new_world TANK_COLORS : world shell) = None /\
  BlackEarthGame.add_bullet (physics := demo_physics) (projectile := demo_projectile)
    1%nat 100 (new_world TANK_COLORS : world shell)
    = (Raise AttributeError, new_world TANK_COLORS) /\
  bullets_list demo_two_shells = Some [1%nat; 2%nat] /\
  1%nat ∈ [1%nat; 2%nat] /\
  BlackEarthGame.add_bullet (physics := demo_physics) (projectile := demo_projectile)
    1%nat 100 demo_two_shells
    = (Raise ValueError, demo_two_shells).
Proof.
  assert (Hin : 1%nat ∈ [1%nat; 2%nat]) by (apply list_elem_of_here).
  split; [reflexivity|].
  split; [exact (proj1 (add_bullet_without_setup (physics := demo_physics)
                          (projectile := demo_projectile)
                          (new_world TANK_COLORS) 1%nat 100) eq_refl)|].
  split; [reflexivity|]. split; [exact Hin|].
  exact (proj1 (proj2 (add_bullet_without_setup (physics := demo_physics)
                         (projectile := demo_projectile)
                         demo_two_shells 1%nat 100))
           [1%nat; 2%nat] eq_refl Hin).
Defined.

Lemma ground_hit_removes_only_that_projectile_witness :
  bullets_list demo_two_shells = Some [1%nat; 2%nat] /\
  exists w2,
    BlackEarthGame.collision (projectile := demo_projectile) 1%nat 0%nat
      demo_two_shells = (Return tt, w2) /\
    bullets_list w2 = Some [2%nat].
Proof.
  split; [reflexivity|].
  edestruct (ground_hit_removes_only_that_projectile (projectile := demo_projectile)
               demo_two_shells 1%nat 0%nat)
    as (w2 & e2 & E & L & _); [reflexivity .. |].
  exists w2. split; [exact E|]. rewrite L. reflexivity.
Defined.

Lemma same_type_collision_changes_nothing_witness :
  (exists e,
     physics_engine demo_two_shells = Some e /\
     handlers e = [("bullet", "ground", bullet_ground_handler_fn)] /\
     collision_type <$> registry e !! 1%nat = collision_type <$> registry e !! 2%nat) /\
  BlackEarthGame.collision (projectile := demo_projectile) 1%nat 2%nat
    demo_two_shells = (Return tt, demo_two_shells).
Proof.
  assert (H : exists e,
     physics_engine demo_two_shells = Some e /\
     handlers e = [("bullet", "ground", bullet_ground_handler_fn)] /\
     collision_type <$> registry e !! 1%nat = collision_type <$> registry e !! 2%nat)
    by (eexists; repeat split; reflexivity).
  split; [exact H|].
  destruct H as (e & He & Hh & Ht).
  exact (same_type_collision_changes_nothing (projectile := demo_projectile)
           demo_two_shells 1%nat 2%nat e He Hh Ht).
Defined.

Lemma fire_and_hit_after_setup_witness :
  sprites demo_world_with_shell !! 1%nat = Some (Bullet (mkShell 5 (1 # 2) false)) /\
  exists w0 g w1 w2,
    setup_environment (window := demo_window) (physics := demo_physics)
      demo_world_with_shell = (Return tt, w0) /\
    BlackEarthGame.add_bullet (physics := demo_physics)
      (projectile := demo_projectile) 1%nat 100 w0 = (Return tt, w1) /\
    BlackEarthGame.collision (projectile := demo_projectile) 1%nat g w1
      = (Return tt, w2) /\
    bullets_list w2 = Some [] /\
    sprites w2 !! 1%nat = Some (Bullet (mkShell 5 (1 # 2) true)).
Proof.
  split; [reflexivity|].
  destruct (fire_and_hit_after_setup (window := demo_window)
              (physics := demo_physics) (projectile := demo_projectile)
              demo_world_with_shell 1%nat (mkShell 5 (1 # 2) false) 100 eq_refl)
    as (w0 & g & w1 & w2 & e2 & E0 & _ & E1 & _ & E2 & L2 & S2 & _).
  exists w0, g, w1, w2. auto.
Defined.

Lemma run_keeps_the_game_sound_witness :
  turn_order [0%nat; 1%nat] 0 demo_world /\
  Forall (fun ev => is_quit ev = false)
    [GKeyPress key.LEFT 0; GFrame (1 # 60); GKeyRelease key.SPACE 0;
     GKeyPress key.RIGHT 0; GFrame (1 # 60)] /\
  exists w',
    game_run (stepper := demo_step)
      [GKeyPress key.LEFT 0; GFrame (1 # 60); GKeyRelease key.SPACE 0;
       GKeyPress key.RIGHT 0; GFrame (1 # 60)] demo_world = (Return tt, w') /\
    turn_order [0%nat; 1%nat] 1 w'.
Proof.
  assert (H : turn_order [0%nat; 1%nat] 0 demo_world)
    by (repeat split; [discriminate | reflexivity ..]).
  assert (Hq : Forall (fun ev => is_quit ev = false)
                 [GKeyPress key.LEFT 0; GFrame (1 # 60); GKeyRelease key.SPACE 0;
                  GKeyPress key.RIGHT 0; GFrame (1 # 60)])
    by (repeat constructor).
  split; [exact H|]. split; [exact Hq|].
  edestruct (run_keeps_the_game_sound (stepper := demo_step)
               [0%nat; 1%nat] 0 _ _ demo_world H eq_refl Hq)
    as (w' & E & Hw' & _).
  exists w'. split; [exact E|exact Hw'].
Defined.

Lemma inactive_tanks_stay_at_rest_witness :
  turn_order [0%nat; 1%nat] 0 demo_world /\
  exists w',
    game_run (stepper := demo_step)
      [GKeyPress key.LEFT 0; GFrame (1 # 60); GKeyRelease key.SPACE 0;
       GKeyPress key.RIGHT 0; GFrame (1 # 60)] demo_world = (Return tt, w') /\
    forall t, activeTank w' <> Some 0%nat -> tanks w' !! 0%nat = Some t ->
              turretSpeed (turret_obj t) = 0.
Proof.
  assert (H : turn_order [0%nat; 1%nat] 0 demo_world)
    by (repeat split; [discriminate | reflexivity ..]).
  assert (Hq : Forall (fun ev => is_quit ev = false)
                 [GKeyPress key.LEFT 0; GFrame (1 # 60); GKeyRelease key.SPACE 0;
                  GKeyPress key.RIGHT 0; GFrame (1 # 60)])
    by (repeat constructor).
  assert (Hrest : forall r t, activeTank demo_world <> Some r ->
                    tanks demo_world !! r = Some t ->
                    turretSpeed (turret_obj t) = 0).
  { intros r t Hr Ht.
    change (tanks demo_world)
      with (<[1%nat := Tank.__init__ "Player 2" (mkVec2d 200 200) BLUE]>
              (<[0%nat := Tank.__init__ "Player 1" (mkVec2d 100 200) RED]>
                 (∅ : gmap nat tank))) in Ht.
    destruct (decide (r = 1%nat)) as [->|H1].
    - rewrite lookup_insert_eq in Ht. injection Ht as <-. reflexivity.
    - rewrite lookup_insert_ne in Ht by congruence.
      destruct (decide (r = 0%nat)) as [->|H0].
      + exfalso. apply Hr. reflexivity.
      + rewrite lookup_insert_ne, lookup_empty in Ht by congruence.
        discriminate Ht. }
  split; [exact H|].
  edestruct (inactive_tanks_stay_at_rest (stepper := demo_step)
               [0%nat; 1%nat] 0 _ _ demo_world H eq_refl Hq Hrest)
    as (w' & E & Hw').
  exists w'. split; [exact E|]. intros t. apply Hw'.
Defined.

Lemma key_events_only_set_the_active_speed_witness :
  activeTank demo_world = Some 0%nat /\
  exists w1,
    BlackEarthGame.on_key_press key.LEFT 0 demo_world = (Return tt, w1) /\
    tanks w1 !! 1%nat = tanks demo_world !! 1%nat.
Proof.
  split; [reflexivity|].
  destruct (key_events_only_set_the_active_speed demo_world 0%nat key.LEFT 0 eq_refl)
    as (w1 & w2 & E1 & _ & H).
  exists w1. split; [exact E1|].
  apply (proj1 (H w1 (or_introl eq_refl))). discriminate.
Defined.

Lemma tanks_change_only_in_their_turn_witness :
  turn_order [0%nat; 1%nat] 0 demo_world /\
  exists w',
    game_run (stepper := demo_step)
      [GKeyPress key.LEFT 0; GFrame (1 # 60); GKeyRelease key.LEFT 0] demo_world
      = (Return tt, w') /\
    tanks w' !! 1%nat = tanks demo_world !! 1%nat.
Proof.
  assert (H : turn_order [0%nat; 1%nat] 0 demo_world)
    by (repeat split; [discriminate | reflexivity ..]).
  assert (Hq : Forall (fun ev => is_quit ev = false)
                 [GKeyPress key.LEFT 0; GFrame (1 # 60); GKeyRelease key.LEFT 0])
    by (repeat constructor).
  split; [exact H|].
  edestruct (tanks_change_only_in_their_turn (stepper := demo_step)
               [0%nat; 1%nat] 0 _ _ demo_world H eq_refl Hq)
    as (w' & E & Hw').
  exists w'. split; [exact E|]. apply Hw'.
  intros j Hj. cbn in Hj. replace j with 0%nat by lia. discriminate.
Defined.
